(** * llama_deploy client: the API-server resource models

    A shallow embedding of [llama_deploy/client/models/apiserver.py]:
    the [Session], [Task], [Deployment] and [ApiServer] models, their
    collections, and the HTTP requests each method issues.

    Coroutines ([async def]) are trees of awaited requests; the event
    generator [Task.events] is a function from the answers of the server to
    the actions it performs.  What the module imports from libraries
    ([json], [httpx], [pydantic]) or from files of the package that are
    not part of this development is either a small Python-level definition
    or a field of the class [Externals]. *)

From Stdlib Require Import String Ascii ZArith List Bool Lia.
From Stdlib Require Import PrimFloat Uint63 DecimalString.
Import ListNotations.

Set Warnings "-register-all".
Open Scope string_scope.
Open Scope Z_scope.

(** ** Python values and exceptions *)

(** The exceptions the module can raise or let through. *)
Inductive exn : Type :=
| ConnectError                       (* httpx.ConnectError *)
| TransportError (name : string)     (* any other httpx transport error *)
| HTTPStatusError (status_code : Z)  (* httpx.HTTPStatusError, with e.response.status_code *)
| JSONDecodeError
| ValidationError                    (* pydantic.ValidationError *)
| AttributeError
| KeyError
| TypeError.

Inductive result (A : Type) : Type :=
| Ok (a : A)
| Err (e : exn).
Arguments Ok {A} a.
Arguments Err {A} e.

(** A Python [dict] with string keys: insertion ordered, one binding per key. *)
Definition dict (V : Type) : Type := list (string * V).

Fixpoint dict_get {V : Type} (d : dict V) (k : string) : option V :=
  match d with
  | [] => None
  | (k', v) :: d' => if String.eqb k' k then Some v else dict_get d' k
  end.

(** [d[k] = v]: an existing key keeps its position and takes the new value. *)
Fixpoint dict_set {V : Type} (d : dict V) (k : string) (v : V) : dict V :=
  match d with
  | [] => [(k, v)]
  | (k', v') :: d' =>
      if String.eqb k' k then (k', v) :: d' else (k', v') :: dict_set d' k v
  end.

(** What [json.loads] and [Response.json()] return. *)
Inductive json : Type :=
| JNull
| JBool (b : bool)
| JInt (z : Z)
| JFloat (f : float)
| JStr (s : string)
| JArr (xs : list json)
| JObj (kvs : dict json).

(** Truth value of a decoded value ([x or y], [if x:]). *)
Definition truthy (v : json) : bool :=
  match v with
  | JNull => false
  | JBool b => b
  | JInt z => negb (z =? 0)
  | JFloat f => negb (PrimFloat.eqb f 0%float)
  | JStr s => negb (String.eqb s EmptyString)
  | JArr xs => match xs with [] => false | _ => true end
  | JObj kvs => match kvs with [] => false | _ => true end
  end.

Fixpoint chars (s : string) : list json :=
  match s with
  | EmptyString => []
  | String c s' => JStr (String c EmptyString) :: chars s'
  end.

(** [for x in v]: a list gives its elements, a dict its keys, a string its
    characters; nothing else is iterable. *)
Definition py_iter (v : json) : result (list json) :=
  match v with
  | JArr xs => Ok xs
  | JObj kvs => Ok (map (fun kv => JStr (fst kv)) kvs)
  | JStr s => Ok (chars s)
  | _ => Err TypeError
  end.

(** [v[k]] for a string key [k]. *)
Definition py_getitem (v : json) (k : string) : result json :=
  match v with
  | JObj kvs => match dict_get kvs k with Some x => Ok x | None => Err KeyError end
  | _ => Err TypeError
  end.

(** [v.get(k)]: only a dict has the method. *)
Definition py_get (v : json) (k : string) : result json :=
  match v with
  | JObj kvs => match dict_get kvs k with Some x => Ok x | None => Ok JNull end
  | _ => Err AttributeError
  end.

(** [v.name] for a data attribute: decoded JSON values are built-in objects
    ([dict], [list], [str], [int], [float], [bool], [None]) and have none. *)
Definition py_getattr (v : json) (name : string) : result json :=
  Err AttributeError.

(** pydantic's validation of a field annotated [str] (as [deployment_id] and
    [session_id] of [Task]): only a string passes. *)
Definition validate_str (v : json) : result string :=
  match v with
  | JStr s => Ok s
  | _ => Err ValidationError
  end.

Fixpoint validate_str_list_items (xs : list json) : result (list string) :=
  match xs with
  | [] => Ok []
  | x :: xs' =>
      match validate_str x, validate_str_list_items xs' with
      | Ok s, Ok ss => Ok (s :: ss)
      | _, _ => Err ValidationError
      end
  end.

(** The same for a field annotated [list[str]]. *)
Definition validate_str_list (v : json) : result (list string) :=
  match v with
  | JArr xs => validate_str_list_items xs
  | _ => Err ValidationError
  end.

(** ** A reference JSON decoder

    [json.loads] is taken as a parameter by the operations below.  This
    decoder is the instance used to run them on concrete response bodies.  It
    follows the grammar of Python's [json] module (strict mode), with two
    limits: a [\u] escape must denote an ASCII character, and a number with
    a fraction or an exponent must have a mantissa below [2^53] and a decimal
    exponent within [-22 .. 22] (where one floating-point operation gives the
    correctly rounded value).  Outside these limits it answers [None]. *)

Definition dquote : ascii := "034"%char.

Definition code (c : ascii) : Z := Z.of_nat (nat_of_ascii c).

Definition is_ws (c : ascii) : bool :=
  let n := code c in (n =? 32) || (n =? 9) || (n =? 10) || (n =? 13).

Fixpoint skip_ws (s : string) : string :=
  match s with
  | String c s' => if is_ws c then skip_ws s' else s
  | EmptyString => s
  end.

Definition digit (c : ascii) : option Z :=
  let n := code c in
  if (48 <=? n) && (n <=? 57) then Some (n - 48) else None.

Definition hex_digit (c : ascii) : option Z :=
  let n := code c in
  if (48 <=? n) && (n <=? 57) then Some (n - 48)
  else if (65 <=? n) && (n <=? 70) then Some (n - 55)
  else if (97 <=? n) && (n <=? 102) then Some (n - 87)
  else None.

(** A maximal run of decimal digits: the number read so far, how many digits
    were read, and what follows. *)
Fixpoint digits (s : string) (acc : Z) (n : nat) : Z * nat * string :=
  match s with
  | String c s' =>
      match digit c with
      | Some d => digits s' (10 * acc + d) (S n)
      | None => (acc, n, s)
      end
  | EmptyString => (acc, n, s)
  end.

Definition int_part (s : string) : option (Z * string) :=
  match s with
  | String c s' =>
      match digit c with
      | Some 0 => Some (0, s')
      | Some d => let '(v, _, r) := digits s' d 1 in Some (v, r)
      | None => None
      end
  | EmptyString => None
  end.

Definition frac_part (int : Z) (s : string) : option (Z * nat * string) :=
  match s with
  | String "." s' =>
      match digits s' int 0 with
      | (_, O, _) => None
      | r => Some r
      end
  | _ => None
  end.

Definition exp_part (s : string) : option (Z * string) :=
  match s with
  | String c s' =>
      if Ascii.eqb c "e" || Ascii.eqb c "E" then
        let '(neg, s'') :=
          match s' with
          | String "-" r => (true, r)
          | String "+" r => (false, r)
          | _ => (false, s')
          end in
        match digits s'' 0 0 with
        | (_, O, _) => None
        | (v, _, r) => Some (if neg then - v else v, r)
        end
      else None
  | EmptyString => None
  end.

Fixpoint pow10 (k : nat) : float :=
  match k with
  | O => 1%float
  | S k' => (10 * pow10 k')%float
  end.

Definition to_float (m e10 : Z) : option float :=
  if m =? 0 then Some 0%float
  else if (m <? 2 ^ 53) && (-22 <=? e10) && (e10 <=? 22) then
    let f := PrimFloat.of_uint63 (Uint63.of_Z m) in
    Some (if e10 <? 0 then (f / pow10 (Z.to_nat (- e10)))%float
          else (f * pow10 (Z.to_nat e10))%float)
  else None.

Definition parse_number (s : string) : option (json * string) :=
  let '(neg, s1) :=
    match s with
    | String "-" r => (true, r)
    | _ => (false, s)
    end in
  match int_part s1 with
  | None => None
  | Some (i, s2) =>
      let '(m, k, s3, has_frac) :=
        match frac_part i s2 with
        | Some (m, k, r) => (m, k, r, true)
        | None => (i, O, s2, false)
        end in
      let '(e, s4, has_exp) :=
        match exp_part s3 with
        | Some (e, r) => (e, r, true)
        | None => (0, s3, false)
        end in
      if has_frac || has_exp then
        match to_float m (e - Z.of_nat k) with
        | Some f => Some (JFloat (if neg then (- f)%float else f), s4)
        | None => None
        end
      else Some (JInt (if neg then - i else i), s4)
  end.

Fixpoint strip_prefix (p s : string) : option string :=
  match p, s with
  | EmptyString, _ => Some s
  | String a p', String b s' => if Ascii.eqb a b then strip_prefix p' s' else None
  | String _ _, EmptyString => None
  end.

Definition escape (c : ascii) : option ascii :=
  if Ascii.eqb c dquote then Some dquote
  else if Ascii.eqb c "\" then Some "\"%char
  else if Ascii.eqb c "/" then Some "/"%char
  else if Ascii.eqb c "b" then Some "008"%char
  else if Ascii.eqb c "f" then Some "012"%char
  else if Ascii.eqb c "n" then Some "010"%char
  else if Ascii.eqb c "r" then Some "013"%char
  else if Ascii.eqb c "t" then Some "009"%char
  else None.

Definition hex4 (a b c d : ascii) : option Z :=
  match hex_digit a, hex_digit b, hex_digit c, hex_digit d with
  | Some x, Some y, Some z, Some w => Some (((x * 16 + y) * 16 + z) * 16 + w)
  | _, _, _, _ => None
  end.

(** The characters of a string literal, after its opening quote. *)
Fixpoint parse_chars (s : string) : option (string * string) :=
  match s with
  | EmptyString => None
  | String c s' =>
      if Ascii.eqb c dquote then Some (EmptyString, s')
      else if Ascii.eqb c "\" then
        match s' with
        | String "u" (String h1 (String h2 (String h3 (String h4 r)))) =>
            match hex4 h1 h2 h3 h4 with
            | Some cp =>
                if cp <? 128 then
                  match parse_chars r with
                  | Some (str, r') =>
                      Some (String (ascii_of_nat (Z.to_nat cp)) str, r')
                  | None => None
                  end
                else None
            | None => None
            end
        | String e s'' =>
            match escape e, parse_chars s'' with
            | Some x, Some (str, r) => Some (String x str, r)
            | _, _ => None
            end
        | EmptyString => None
        end
      else if code c <? 32 then None
      else
        match parse_chars s' with
        | Some (str, r) => Some (String c str, r)
        | None => None
        end
  end.

Definition parse_literal (s : string) : option (json * string) :=
  match strip_prefix "null" s with
  | Some r => Some (JNull, r)
  | None =>
  match strip_prefix "true" s with
  | Some r => Some (JBool true, r)
  | None =>
  match strip_prefix "false" s with
  | Some r => Some (JBool false, r)
  | None =>
  match strip_prefix "NaN" s with
  | Some r => Some (JFloat nan, r)
  | None =>
  match strip_prefix "Infinity" s with
  | Some r => Some (JFloat infinity, r)
  | None =>
  match strip_prefix "-Infinity" s with
  | Some r => Some (JFloat neg_infinity, r)
  | None => parse_number s
  end end end end end end.

Fixpoint parse_value (fuel : nat) (s : string) : option (json * string) :=
  match fuel with
  | O => None
  | S fuel' =>
      match s with
      | EmptyString => None
      | String c s' =>
          if Ascii.eqb c dquote then
            match parse_chars s' with
            | Some (str, r) => Some (JStr str, r)
            | None => None
            end
          else if Ascii.eqb c "[" then
            match skip_ws s' with
            | String "]" r => Some (JArr [], r)
            | s1 =>
                match parse_elements fuel' s1 with
                | Some (xs, r) => Some (JArr xs, r)
                | None => None
                end
            end
          else if Ascii.eqb c "{" then
            match skip_ws s' with
            | String "}" r => Some (JObj [], r)
            | s1 =>
                match parse_members fuel' s1 with
                | Some (kvs, r) =>
                    Some (JObj (fold_left
                                  (fun d kv => dict_set d (fst kv) (snd kv))
                                  kvs []), r)
                | None => None
                end
            end
          else parse_literal s
      end
  end

with parse_elements (fuel : nat) (s : string) : option (list json * string) :=
  match fuel with
  | O => None
  | S fuel' =>
      match parse_value fuel' s with
      | None => None
      | Some (v, r) =>
          match skip_ws r with
          | String "," r' =>
              match parse_elements fuel' (skip_ws r') with
              | Some (vs, r'') => Some (v :: vs, r'')
              | None => None
              end
          | String "]" r' => Some ([v], r')
          | _ => None
          end
      end
  end

with parse_members (fuel : nat) (s : string)
  : option (list (string * json) * string) :=
  match fuel with
  | O => None
  | S fuel' =>
      match s with
      | String c s' =>
          if Ascii.eqb c dquote then
            match parse_chars s' with
            | None => None
            | Some (k, r) =>
                match skip_ws r with
                | String ":" r1 =>
                    match parse_value fuel' (skip_ws r1) with
                    | None => None
                    | Some (v, r2) =>
                        match skip_ws r2 with
                        | String "," r3 =>
                            match parse_members fuel' (skip_ws r3) with
                            | Some (kvs, r4) => Some ((k, v) :: kvs, r4)
                            | None => None
                            end
                        | String "}" r3 => Some ([(k, v)], r3)
                        | _ => None
                        end
                    end
                | _ => None
                end
            end
          else None
      | EmptyString => None
      end
  end.

(** The whole document: one value, white space allowed around it. *)
Definition decode_json (s : string) : option json :=
  match parse_value (2 * String.length s + 2) (skip_ws s) with
  | Some (v, r) =>
      match skip_ws r with
      | EmptyString => Some v
      | _ => None
      end
  | None => None
  end.

(** JSON text is written below with apostrophes in place of double quotes. *)
Fixpoint jtext (s : string) : string :=
  match s with
  | EmptyString => EmptyString
  | String c s' => String (if Ascii.eqb c "'" then dquote else c) (jtext s')
  end.

(** ** The HTTP layer *)

(** Modelled from the spec: the shared [Client] (client/base.py, not part of
    this development), which owns the connection configuration: base URL,
    TLS-verification flag and timeout.  The field names are the ones the
    module reads. *)
Record Client : Type := {
  api_server_url : string;
  disable_ssl : bool;
  timeout : float
}.

Inductive http_method : Type := GET | POST.

(** One request handed to the HTTP layer, with the keyword arguments of the
    call; [None] where the call does not pass the argument. *)
Record Request : Type := {
  req_method : http_method;
  req_url : string;
  req_params : option (dict string);
  req_json : option json;
  req_files : option (dict string);
  req_verify : option bool;
  req_timeout : option float
}.

Record Response : Type := {
  status_code : Z;
  text : string
}.

(** What awaiting a request gives back: a response, or the exception the
    HTTP layer raises. *)
Inductive reply : Type :=
| Responded (r : Response)
| Failed (e : exn).

(** ** Coroutines *)

(** An [async def] body: it returns, raises, or awaits a request and goes on
    with the reply. *)
Inductive Async (A : Type) : Type :=
| Return (a : A)
| Raise (e : exn)
| Await (rq : Request) (k : reply -> Async A).
Arguments Return {A} a.
Arguments Raise {A} e.
Arguments Await {A} rq k.

Fixpoint bind {A B : Type} (t : Async A) (f : A -> Async B) : Async B :=
  match t with
  | Return a => f a
  | Raise e => Raise e
  | Await rq k => Await rq (fun o => bind (k o) f)
  end.

Notation "x <- t ;; k" := (bind t (fun x => k))
  (at level 61, t at next level, right associativity).

Definition rbind {A B : Type} (r : result A) (f : A -> result B) : result B :=
  match r with
  | Ok a => f a
  | Err e => Err e
  end.

Notation "'let?' x := r 'in' k" := (rbind r (fun x => k))
  (at level 61, x name, r at next level, right associativity).

(** A computation without awaits, inside a coroutine. *)
Definition lift {A : Type} (r : result A) : Async A :=
  match r with
  | Ok a => Return a
  | Err e => Raise e
  end.

(** [await self.client.request(...)]: the request goes to the HTTP layer, and
    the coroutine goes on with the response or raises what the layer
    raised. *)
Definition Client_request (rq : Request) : Async Response :=
  Await rq (fun o =>
    match o with
    | Responded r => Return r
    | Failed e => Raise e
    end).

(** [try: x = body / except E: handler] followed by [rest]: only an
    exception of the body that [catches] accepts runs the handler. *)
Fixpoint try_except {A B : Type} (body : Async A) (catches : exn -> bool)
    (handler : Async B) (rest : A -> Async B) : Async B :=
  match body with
  | Return a => rest a
  | Raise e => if catches e then handler else Raise e
  | Await rq k => Await rq (fun o => try_except (k o) catches handler rest)
  end.

Definition is_ConnectError (e : exn) : bool :=
  match e with
  | ConnectError => true
  | _ => false
  end.

(** [{key: value for x in iterable}]. *)
Fixpoint comprehension_loop {T : Type} (key : json -> result string)
    (value : json -> result T) (xs : list json) (acc : dict T)
  : result (dict T) :=
  match xs with
  | [] => Ok acc
  | x :: xs' =>
      let? k := key x in
      let? v := value x in
      comprehension_loop key value xs' (dict_set acc k v)
  end.

Definition dict_comprehension {T : Type} (iterable : json)
    (key : json -> result string) (value : json -> result T)
  : result (dict T) :=
  let? xs := py_iter iterable in
  comprehension_loop key value xs [].

(** ** Running a coroutine against a server *)

Section Execution.

(** The other end of the HTTP layer: a state and the reply to each
    request. *)
Context {S : Type} (handle : S -> Request -> reply * S).

(** The coroutine driven to its end: its result, the state of the server
    and the requests issued, in order. *)
Fixpoint run {A : Type} (t : Async A) (s : S)
  : result A * S * list Request :=
  match t with
  | Return a => (Ok a, s, [])
  | Raise e => (Err e, s, [])
  | Await rq k =>
      let '(o, s') := handle s rq in
      let '(r, s'', log) := run (k o) s' in
      (r, s'', rq :: log)
  end.

End Execution.

(** ** What the module takes from outside *)

Class Externals : Type := {
  (** [json.loads], also behind [Response.json()]; [None]: [JSONDecodeError] *)
  json_loads : string -> option json;
  (** [str(v)] for a value that is not a string *)
  py_str : json -> string;
  (** [llama_deploy.types.core.TaskResult] and its [model_validate_json] on
      a string; [None]: [ValidationError] *)
  TaskResult : Type;
  model_validate_json : string -> option TaskResult;
  (** [llama_deploy.types.core.SessionDefinition]: construction from keyword
      arguments ([None]: [ValidationError]) and the [session_id] field *)
  SessionDefinition : Type;
  SessionDefinition_init : dict json -> option SessionDefinition;
  SessionDefinition_session_id : SessionDefinition -> string;
  (** [llama_deploy.types.core.TaskDefinition] and its [model_dump] *)
  TaskDefinition : Type;
  model_dump : TaskDefinition -> json
}.

(** [r.json()]. *)
Definition Response_json {E : Externals} (r : Response) : Async json :=
  match json_loads (text r) with
  | Some v => Return v
  | None => Raise JSONDecodeError
  end.

(** [f"{d}"]. *)
Definition format {E : Externals} (d : json) : string :=
  match d with
  | JStr s => s
  | _ => py_str d
  end.

(** [httpx.Response.raise_for_status]: any status outside 2xx raises. *)
Definition is_success (code : Z) : bool := (200 <=? code) && (code <=? 299).

Definition raise_for_status (code : Z) : result unit :=
  if is_success code then Ok tt else Err (HTTPStatusError code).

Definition nl : string := String "010"%char EmptyString.

Definition DEFAULT_POLL_INTERVAL : float := 0.5%float.

(** ** Resource objects and their methods *)

Module Model.

(** A single remote resource: the fields of the base class [Model]. *)
Record t : Type := {
  client : Client;
  _instance_is_sync : bool;
  id : string
}.

(** Modelled from the spec: the [instance] constructor, defined in
    client/models/model.py, which is not part of this development.  Its
    inputs are the owning client, the [make_sync] flag and the [id]; its
    output is the resource object in the requested calling mode; the [id]
    is a string. *)
Definition instance (make_sync : bool) (client : Client) (id : json)
  : result t :=
  let? id := validate_str id in
  Ok {| client := client; _instance_is_sync := make_sync; id := id |}.

End Model.

Module Session.

Definition t : Type := Model.t.

Definition instance : bool -> Client -> json -> result t := Model.instance.

End Session.

Module SessionCollection.

Record t : Type := {
  client : Client;
  _instance_is_sync : bool;
  items : dict Session.t;
  deployment_id : string
}.

(** Modelled from the spec: the [instance] constructor of a collection
    (client/models/model.py, not part of this development): it wraps the
    items it is given, in the requested calling mode. *)
Definition instance (make_sync : bool) (client : Client)
    (deployment_id : json) (items : dict Session.t) : result t :=
  let? deployment_id := validate_str deployment_id in
  Ok {| client := client; _instance_is_sync := make_sync;
        items := items; deployment_id := deployment_id |}.

Definition delete (self : t) (session_id : string) : Async unit :=
  let delete_url :=
    api_server_url (client self) ++ "/deployments/" ++ deployment_id self
      ++ "/sessions/delete" in
  _ <- Client_request
         {| req_method := POST;
            req_url := delete_url;
            req_params := Some [("session_id", session_id)];
            req_json := None;
            req_files := None;
            req_verify := Some (negb (disable_ssl (client self)));
            req_timeout := Some (timeout (client self)) |} ;;
  Return tt.

Definition create {E : Externals} (self : t) : Async Session.t :=
  let create_url :=
    api_server_url (client self) ++ "/deployments/" ++ deployment_id self
      ++ "/sessions/create" in
  r <- Client_request
         {| req_method := POST;
            req_url := create_url;
            req_params := None;
            req_json := None;
            req_files := None;
            req_verify := Some (negb (disable_ssl (client self)));
            req_timeout := Some (timeout (client self)) |} ;;
  body <- Response_json r ;;
  session_def <-
    match body with
    | JObj fields =>
        match SessionDefinition_init fields with
        | Some d => Return d
        | None => Raise ValidationError
        end
    | _ => Raise TypeError
    end ;;
  lift (Session.instance
          (_instance_is_sync self)
          (client self)
          (JStr (SessionDefinition_session_id session_def))).

End SessionCollection.

(** One connection attempt of the event stream, as the server answers it:
    the connection fails, or a response arrives with its status and the
    lines of its body. *)
Inductive attempt : Type :=
| ConnectFails (e : exn)
| Responds (status_code : Z) (lines : list string).

(** What the event generator does, in order. *)
Inductive action : Type :=
| Connect (rq : Request)
| Sleep (seconds : float)
| Yield (event : json).

(** How the generator ends.  The actions list one turn of the loop for each
    attempt the server has answered; [Blocked]: all of them were answered
    404, so the generator has not ended: it is in its next attempt, which
    the server has not answered yet. *)
Inductive ending : Type :=
| Done
| Raised (e : exn)
| Blocked.

Module Task.

Record t : Type := {
  client : Client;
  _instance_is_sync : bool;
  id : string;
  deployment_id : string;
  session_id : string
}.

(** Modelled from the spec: the [instance] constructor (see
    [Model.instance]) with the two fields the class adds, both strings. *)
Definition instance (make_sync : bool) (client : Client)
    (deployment_id id session_id : json) : result t :=
  match validate_str id, validate_str deployment_id,
        validate_str session_id with
  | Ok id, Ok deployment_id, Ok session_id =>
      Ok {| client := client; _instance_is_sync := make_sync; id := id;
            deployment_id := deployment_id; session_id := session_id |}
  | _, _, _ => Err ValidationError
  end.

Definition results {E : Externals} (self : t) : Async TaskResult :=
  let results_url :=
    api_server_url (client self) ++ "/deployments/" ++ deployment_id self
      ++ "/tasks/" ++ id self ++ "/results" in
  r <- Client_request
         {| req_method := GET;
            req_url := results_url;
            req_params := Some [("session_id", session_id self)];
            req_json := None;
            req_files := None;
            req_verify := Some (negb (disable_ssl (client self)));
            req_timeout := Some (timeout (client self)) |} ;;
  body <- Response_json r ;;
  match body with
  | JStr s =>
      match model_validate_json s with
      | Some task_result => Return task_result
      | None => Raise ValidationError
      end
  | _ => Raise ValidationError
  end.

(** The streaming request of [events]: an [httpx.AsyncClient] built with
    [verify] only, and [client.stream("GET", events_url, params=...)]. *)
Definition events_request (self : t) : Request :=
  let events_url :=
    api_server_url (client self) ++ "/deployments/" ++ deployment_id self
      ++ "/tasks/" ++ id self ++ "/events" in
  {| req_method := GET;
     req_url := events_url;
     req_params := Some [("session_id", session_id self)];
     req_json := None;
     req_files := None;
     req_verify := Some (negb (disable_ssl (client self)));
     req_timeout := None |}.

(** [async for line in response.aiter_lines()], then [break]. *)
Fixpoint stream_lines {E : Externals} (lines : list string)
  : list action * result unit :=
  match lines with
  | [] => ([], Ok tt)
  | line :: lines' =>
      match json_loads line with
      | Some json_line =>
          let '(acts, r) := stream_lines lines' in
          (Yield json_line :: acts, r)
      | None => ([], Err JSONDecodeError)
      end
  end.

(** The body of the [try]. *)
Definition try_body {E : Externals} (a : attempt)
  : list action * result unit :=
  match a with
  | ConnectFails e => ([], Err e)
  | Responds code lines =>
      match raise_for_status code with
      | Ok _ => stream_lines lines
      | Err e => ([], Err e)
      end
  end.

(** The [while True] loop: one turn for each answer of the server. *)
Fixpoint events {E : Externals} (self : t) (server : list attempt)
  : list action * ending :=
  match server with
  | [] => ([], Blocked)
  | a :: server' =>
      let '(acts, r) := try_body a in
      let acts := Connect (events_request self) :: acts in
      match r with
      | Ok _ => (acts, Done)
      | Err (HTTPStatusError code) =>
          if negb (code =? 404) then (acts, Raised (HTTPStatusError code))
          else
            let '(more, fin) := events self server' in
            ((acts ++ Sleep DEFAULT_POLL_INTERVAL :: more)%list, fin)
      | Err e => (acts, Raised e)
      end
  end.

End Task.

Module TaskCollection.

Record t : Type := {
  client : Client;
  _instance_is_sync : bool;
  items : dict Task.t;
  deployment_id : string
}.

(** Modelled from the spec: the [instance] constructor of a collection
    (see [SessionCollection.instance]). *)
Definition instance (make_sync : bool) (client : Client)
    (deployment_id : json) (items : dict Task.t) : result t :=
  let? deployment_id := validate_str deployment_id in
  Ok {| client := client; _instance_is_sync := make_sync;
        items := items; deployment_id := deployment_id |}.

Definition run {E : Externals} (self : t) (task : TaskDefinition)
  : Async json :=
  let run_url :=
    api_server_url (client self) ++ "/deployments/" ++ deployment_id self
      ++ "/tasks/run" in
  r <- Client_request
         {| req_method := POST;
            req_url := run_url;
            req_params := None;
            req_json := Some (model_dump task);
            req_files := None;
            req_verify := Some (negb (disable_ssl (client self)));
            req_timeout := Some (timeout (client self)) |} ;;
  Response_json r.

Definition create {E : Externals} (self : t) (task : TaskDefinition)
  : Async Task.t :=
  let create_url :=
    api_server_url (client self) ++ "/deployments/" ++ deployment_id self
      ++ "/tasks/create" in
  r <- Client_request
         {| req_method := POST;
            req_url := create_url;
            req_params := None;
            req_json := Some (model_dump task);
            req_files := None;
            req_verify := Some (negb (disable_ssl (client self)));
            req_timeout := Some (timeout (client self)) |} ;;
  response_fields <- Response_json r ;;
  lift (let? task_id := py_getitem response_fields "task_id" in
        let? session_id := py_getitem response_fields "session_id" in
        Task.instance
          (_instance_is_sync self)
          (client self)
          (JStr (deployment_id self))
          task_id
          session_id).

End TaskCollection.

Module Deployment.

Definition t : Type := Model.t.

Definition instance : bool -> Client -> json -> result t := Model.instance.

Definition tasks {E : Externals} (self : t) : Async TaskCollection.t :=
  let tasks_url :=
    api_server_url (Model.client self) ++ "/deployments/" ++ Model.id self
      ++ "/tasks" in
  r <- Client_request
         {| req_method := GET;
            req_url := tasks_url;
            req_params := None;
            req_json := None;
            req_files := None;
            req_verify := Some (negb (disable_ssl (Model.client self)));
            req_timeout := Some (timeout (Model.client self)) |} ;;
  body <- Response_json r ;;
  items <- lift (dict_comprehension body
             (fun task_def => Ok "id")
             (fun task_def =>
                let? task_id := py_getattr task_def "task_id" in
                let? session_id := py_getattr task_def "session_id" in
                Task.instance
                  (Model._instance_is_sync self)
                  (Model.client self)
                  (JStr (Model.id self))
                  task_id
                  session_id)) ;;
  lift (TaskCollection.instance
          (Model._instance_is_sync self)
          (Model.client self)
          (JStr (Model.id self))
          items).

Definition sessions {E : Externals} (self : t) : Async SessionCollection.t :=
  let sessions_url :=
    api_server_url (Model.client self) ++ "/deployments/" ++ Model.id self
      ++ "/sessions" in
  r <- Client_request
         {| req_method := GET;
            req_url := sessions_url;
            req_params := None;
            req_json := None;
            req_files := None;
            req_verify := Some (negb (disable_ssl (Model.client self)));
            req_timeout := Some (timeout (Model.client self)) |} ;;
  body <- Response_json r ;;
  items <- lift (dict_comprehension body
             (fun session_def => Ok "id")
             (fun session_def =>
                let? session_id := py_getattr session_def "session_id" in
                Session.instance
                  (Model._instance_is_sync self)
                  (Model.client self)
                  session_id)) ;;
  lift (SessionCollection.instance
          (Model._instance_is_sync self)
          (Model.client self)
          (JStr (Model.id self))
          items).

End Deployment.

Module DeploymentCollection.

Record t : Type := {
  client : Client;
  _instance_is_sync : bool;
  items : dict Deployment.t
}.

(** Modelled from the spec: the [instance] constructor of a collection
    (see [SessionCollection.instance]). *)
Definition instance (make_sync : bool) (client : Client)
    (items : dict Deployment.t) : result t :=
  Ok {| client := client; _instance_is_sync := make_sync; items := items |}.

(** [config] stands for the text that [config.read()] returns. *)
Definition create {E : Externals} (self : t) (config : string)
  : Async Deployment.t :=
  let create_url := api_server_url (client self) ++ "/deployments/create" in
  let files := [("config_file", config)] in
  r <- Client_request
         {| req_method := POST;
            req_url := create_url;
            req_params := None;
            req_json := None;
            req_files := Some files;
            req_verify := Some (negb (disable_ssl (client self)));
            req_timeout := Some (timeout (client self)) |} ;;
  body <- Response_json r ;;
  lift (let? name := py_get body "name" in
        Deployment.instance (_instance_is_sync self) (client self) name).

Definition get (self : t) (deployment_id : string) : Async Deployment.t :=
  let get_url :=
    api_server_url (client self) ++ "/deployments/" ++ deployment_id in
  _ <- Client_request
         {| req_method := GET;
            req_url := get_url;
            req_params := None;
            req_json := None;
            req_files := None;
            req_verify := Some (negb (disable_ssl (client self)));
            req_timeout := Some (timeout (client self)) |} ;;
  lift (Deployment.instance
          (_instance_is_sync self) (client self) (JStr deployment_id)).

End DeploymentCollection.

(** Modelled from the spec: the status values [HEALTHY], [UNHEALTHY] and
    [DOWN] of [llama_deploy.types.apiserver.StatusEnum], which is not part
    of this development. *)
Inductive StatusEnum : Type := HEALTHY | UNHEALTHY | DOWN.

Module Status.

(** Modelled from the spec: [llama_deploy.types.apiserver.Status], which is
    not part of this development, with the fields the module sets: the
    status value, the message and the list of deployment names
    ([None] where the constructor call leaves it out). *)
Record t : Type := {
  status : StatusEnum;
  status_message : string;
  deployments : option (list string)
}.

(** Modelled from the spec: the constructor call
    [Status(status=..., status_message=..., deployments=...)] of the same
    absent type; the deployment list is a list of names (strings). *)
Definition init (status : StatusEnum) (status_message : string)
    (deployments : json) : result t :=
  let? names := validate_str_list deployments in
  Ok {| status := status; status_message := status_message;
        deployments := Some names |}.

End Status.

Module ApiServer.

Definition t : Type := Model.t.

Definition instance : bool -> Client -> json -> result t := Model.instance.

Definition status {E : Externals} (self : t) : Async Status.t :=
  let status_url := api_server_url (Model.client self) ++ "/status/" in
  try_except
    (Client_request
       {| req_method := GET;
          req_url := status_url;
          req_params := None;
          req_json := None;
          req_files := None;
          req_verify := Some (negb (disable_ssl (Model.client self)));
          req_timeout := Some (timeout (Model.client self)) |})
    is_ConnectError
    (Return {| Status.status := DOWN;
               Status.status_message := "API Server is down";
               Status.deployments := None |})
    (fun r =>
       if 400 <=? status_code r then
         body <- Response_json r ;;
         Return {| Status.status := UNHEALTHY;
                   Status.status_message := text r;
                   Status.deployments := None |}
       else
         let description := "Llama Deploy is up and running." in
         body <- Response_json r ;;
         lift (let? found := py_get body "deployments" in
               let deployments := if truthy found then found else JArr [] in
               let? description :=
                 if truthy deployments then
                   let description :=
                     description ++ nl ++ "Active deployments:" in
                   let? ds := py_iter deployments in
                   Ok (fold_left
                         (fun description d =>
                            description ++ nl ++ "- " ++ format d)
                         ds description)
                 else
                   Ok (description ++ nl
                         ++ "Currently there are no active deployments") in
               Status.init HEALTHY description deployments)).

Definition deployments {E : Externals} (self : t)
  : Async DeploymentCollection.t :=
  let status_url := api_server_url (Model.client self) ++ "/deployments/" in
  r <- Client_request
         {| req_method := GET;
            req_url := status_url;
            req_params := None;
            req_json := None;
            req_files := None;
            req_verify := Some (negb (disable_ssl (Model.client self)));
            req_timeout := Some (timeout (Model.client self)) |} ;;
  body <- Response_json r ;;
  deployments <- lift (dict_comprehension body
                   (fun name => Ok "id")
                   (fun name =>
                      Deployment.instance
                        (Model._instance_is_sync self)
                        (Model.client self)
                        name)) ;;
  lift (DeploymentCollection.instance
          (Model._instance_is_sync self)
          (Model.client self)
          deployments).

End ApiServer.

(** ** Properties of every run of a coroutine *)

(** Every value the coroutine can return satisfies [P], whatever the replies. *)
Inductive returns_only {A : Type} (P : A -> Prop) : Async A -> Prop :=
| returns_only_Return (a : A) : P a -> returns_only P (Return a)
| returns_only_Raise (e : exn) : returns_only P (Raise e)
| returns_only_Await (rq : Request) (k : reply -> Async A) :
    (forall o, returns_only P (k o)) -> returns_only P (Await rq k).

(** Every request the coroutine can await satisfies [Q], whatever the
    replies. *)
Inductive awaits_only {A : Type} (Q : Request -> Prop) : Async A -> Prop :=
| awaits_only_Return (a : A) : awaits_only Q (Return a)
| awaits_only_Raise (e : exn) : awaits_only Q (Raise e)
| awaits_only_Await (rq : Request) (k : reply -> Async A) :
    Q rq -> (forall o, awaits_only Q (k o)) -> awaits_only Q (Await rq k).

(** The request passes on both connection options of the client. *)
Definition carries_options (c : Client) (rq : Request) : Prop :=
  req_verify rq = Some (negb (disable_ssl c)) /\
  req_timeout rq = Some (timeout c).

(** [n] turns of the polling loop of [Task.events] that end in the sleep. *)
Fixpoint polling (rq : Request) (n : nat) : list action :=
  match n with
  | O => []
  | Datatypes.S n' => Connect rq :: Sleep DEFAULT_POLL_INTERVAL :: polling rq n'
  end.

Definition is_404 (a : attempt) : Prop :=
  match a with
  | Responds code _ => code = 404
  | ConnectFails _ => False
  end.

(** ** A sample instantiation, to run the methods *)

(** [str] of [None], a boolean or an integer; the sample does not print
    other values. *)
Definition sample_str (v : json) : string :=
  match v with
  | JNull => "None"
  | JBool true => "True"
  | JBool false => "False"
  | JInt z =>
      match z with
      | Z0 => "0"
      | Zpos p => NilZero.string_of_uint (Pos.to_uint p)
      | Zneg p => "-" ++ NilZero.string_of_uint (Pos.to_uint p)
      end
  | _ => "?"
  end.

(** A sample result schema: a task id and a result text. *)
Record SampleTaskResult : Type := {
  task_id : string;
  result_text : string
}.

Definition sample_validate (s : string) : option SampleTaskResult :=
  match decode_json s with
  | Some (JObj fields) =>
      match dict_get fields "task_id", dict_get fields "result" with
      | Some (JStr t), Some (JStr r) =>
          Some {| task_id := t; result_text := r |}
      | _, _ => None
      end
  | _ => None
  end.

(** A sample session schema: just the [session_id], a string. *)
Definition sample_session (fields : dict json) : option string :=
  match dict_get fields "session_id" with
  | Some (JStr s) => Some s
  | _ => None
  end.

#[export] Instance sample_externals : Externals := {|
  json_loads := decode_json;
  py_str := sample_str;
  TaskResult := SampleTaskResult;
  model_validate_json := sample_validate;
  SessionDefinition := string;
  SessionDefinition_init := sample_session;
  SessionDefinition_session_id := fun s => s;
  TaskDefinition := json;
  model_dump := fun task => task
|}.

(** A server that gives the same reply to every request. *)
Definition always (o : reply) (s : unit) (rq : Request) : reply * unit :=
  (o, s).

Definition local_client : Client :=
  {| api_server_url := "http://localhost:4501";
     disable_ssl := false;
     timeout := 120%float |}.

Definition sample_deployment (make_sync : bool) : Deployment.t :=
  {| Model.client := local_client;
     Model._instance_is_sync := make_sync;
     Model.id := "d1" |}.

Definition sample_apiserver (make_sync : bool) : ApiServer.t :=
  {| Model.client := local_client;
     Model._instance_is_sync := make_sync;
     Model.id := "apiserver" |}.

Definition sample_sessions (make_sync : bool) : SessionCollection.t :=
  {| SessionCollection.client := local_client;
     SessionCollection._instance_is_sync := make_sync;
     SessionCollection.items := [];
     SessionCollection.deployment_id := "d1" |}.

Definition sample_tasks (make_sync : bool) : TaskCollection.t :=
  {| TaskCollection.client := local_client;
     TaskCollection._instance_is_sync := make_sync;
     TaskCollection.items := [];
     TaskCollection.deployment_id := "d1" |}.

Definition sample_deployments (make_sync : bool) : DeploymentCollection.t :=
  {| DeploymentCollection.client := local_client;
     DeploymentCollection._instance_is_sync := make_sync;
     DeploymentCollection.items := [] |}.

(** A server that answers every request with status 200 and the given JSON
    text. *)
Definition serving (body : string) : unit -> Request -> reply * unit :=
  always (Responded {| status_code := 200; text := jtext body |}).

Definition sample_task : Task.t :=
  {| Task.client := local_client;
     Task._instance_is_sync := false;
     Task.id := "t1";
     Task.deployment_id := "d1";
     Task.session_id := "s1" |}.

(** ** Ways to state what a run does *)

(** A request that passes on both connection options of the client [c]. *)
Definition client_request (c : Client) (m : http_method) (url : string)
    (params : option (dict string)) (body : option json)
    (files : option (dict string)) : Request :=
  {| req_method := m;
     req_url := url;
     req_params := params;
     req_json := body;
     req_files := files;
     req_verify := Some (negb (disable_ssl c));
     req_timeout := Some (timeout c) |}.

(** The result of a run, and the requests it issued. *)
Definition result_of {S A : Type} (x : result A * S * list Request)
  : result A := fst (fst x).

Definition requests_of {S A : Type} (x : result A * S * list Request)
  : list Request := snd x.

Definition is_Connect (a : action) : bool :=
  match a with
  | Connect _ => true
  | _ => false
  end.

Definition is_Sleep (a : action) : bool :=
  match a with
  | Sleep _ => true
  | _ => false
  end.

Definition is_HTTPStatusError (e : exn) : bool :=
  match e with
  | HTTPStatusError _ => true
  | _ => false
  end.

(** * Properties *)

(** ** The event stream *)

Lemma is_success_error (code : Z) : 400 <= code -> is_success code = false.
Proof.
  intros H. unfold is_success.
  destruct (code <=? 299) eqn:Hle.
  - apply Z.leb_le in Hle. lia.
  - apply andb_false_r.
Qed.

Lemma events_404 {E : Externals} (self : Task.t) (lines : list string)
    (server : list attempt) :
  Task.events self (Responds 404 lines :: server) =
    (Connect (Task.events_request self) :: Sleep DEFAULT_POLL_INTERVAL
       :: fst (Task.events self server),
     snd (Task.events self server)).
Proof.
  cbn [Task.events Task.try_body]. unfold raise_for_status. cbn [is_success].
  change (is_success 404) with false. cbv iota.
  change (negb (404 =? 404)) with false. cbv iota.
  destruct (Task.events self server) as [more fin]. reflexivity.
Qed.

Lemma stream_lines_ending {E : Externals} (lines : list string) :
  snd (Task.stream_lines lines) = Ok tt \/
  snd (Task.stream_lines lines) = Err JSONDecodeError.
Proof.
  induction lines as [|line lines IH]; cbn.
  - now left.
  - destruct (json_loads line); [|now right].
    destruct (Task.stream_lines lines) as [acts r]. exact IH.
Qed.

Lemma events_success {E : Externals} (self : Task.t) (code : Z)
    (lines : list string) (server : list attempt) :
  is_success code = true ->
  Task.events self (Responds code lines :: server) =
    (Connect (Task.events_request self) :: fst (Task.stream_lines lines),
     match snd (Task.stream_lines lines) with
     | Ok _ => Done
     | Err e => Raised e
     end).
Proof.
  intros Hs. cbn [Task.events Task.try_body]. unfold raise_for_status.
  rewrite Hs. destruct (stream_lines_ending lines) as [H|H];
    destruct (Task.stream_lines lines) as [acts r]; cbn in H; subst r;
    reflexivity.
Qed.

Lemma stream_lines_decoded {E : Externals} (lines : list string)
    (events : list json) :
  Forall2 (fun line event => json_loads line = Some event) lines events ->
  Task.stream_lines lines = (map Yield events, Ok tt).
Proof.
  induction 1 as [|line event lines events Hd _ IH]; cbn.
  - reflexivity.
  - rewrite Hd, IH. reflexivity.
Qed.

Lemma events_polling {E : Externals} (self : Task.t) (pre server : list attempt) :
  Forall is_404 pre ->
  Task.events self (pre ++ server) =
    ((polling (Task.events_request self) (length pre)
        ++ fst (Task.events self server))%list,
     snd (Task.events self server)).
Proof.
  induction 1 as [|a pre Ha _ IH].
  - cbn. now destruct (Task.events self server).
  - destruct a as [e|code lines]; [contradiction|]. cbn in Ha. subst code.
    change ((Responds 404 lines :: pre) ++ server)%list
      with (Responds 404 lines :: (pre ++ server))%list.
    rewrite events_404, IH. reflexivity.
Qed.

(** C1: a 404 answer to a connection attempt of [Task.events] is not an
    error: the generator sleeps the poll interval, which is 0.5, and connects
    again.  So for the answers 404, 404, then 200 with three lines that
    decode, it connects, sleeps, connects, sleeps, connects and yields the
    three decoded events in order, and ends without an error. *)
Theorem events_retries_after_404 {E : Externals} (self : Task.t) :
  DEFAULT_POLL_INTERVAL = 0.5%float /\
  (forall lines server,
     Task.events self (Responds 404 lines :: server) =
       (Connect (Task.events_request self) :: Sleep DEFAULT_POLL_INTERVAL
          :: fst (Task.events self server),
        snd (Task.events self server))) /\
  (forall b1 b2 l1 l2 l3 e1 e2 e3,
     json_loads l1 = Some e1 ->
     json_loads l2 = Some e2 ->
     json_loads l3 = Some e3 ->
     Task.events self
       [Responds 404 b1; Responds 404 b2; Responds 200 [l1; l2; l3]] =
       ([Connect (Task.events_request self); Sleep 0.5%float;
         Connect (Task.events_request self); Sleep 0.5%float;
         Connect (Task.events_request self);
         Yield e1; Yield e2; Yield e3],
        Done)).
Proof.
  split; [reflexivity|]. split; [apply events_404|].
  intros b1 b2 l1 l2 l3 e1 e2 e3 H1 H2 H3.
  rewrite !events_404, events_success by reflexivity.
  rewrite (stream_lines_decoded [l1; l2; l3] [e1; e2; e3]) by auto.
  reflexivity.
Qed.

Lemma events_retries_after_404_witness :
  Task.events (E := sample_externals) sample_task
    [Responds 404 []; Responds 404 [jtext "{'detail': 'Not Found'}"];
     Responds 200 [jtext "{'msg': 'a'}"; jtext "{'msg': 'b'}"; jtext "[1, 2]"]]
  = ([Connect (Task.events_request sample_task); Sleep 0.5%float;
      Connect (Task.events_request sample_task); Sleep 0.5%float;
      Connect (Task.events_request sample_task);
      Yield (JObj [("msg", JStr "a")]); Yield (JObj [("msg", JStr "b")]);
      Yield (JArr [JInt 1; JInt 2])],
     Done).
Proof.
  apply (proj2 (proj2 (events_retries_after_404 sample_task)));
    vm_compute; reflexivity.
Defined.

(** C2: an HTTP error status other than 404 on the events request is fatal.
    The error is raised at once: after the connection attempt that got it
    there is no sleep and no event.  In particular a single such answer
    gives no sleep and no event at all, and earlier 404 answers add only
    their own polling turns. *)
Theorem events_other_error_is_fatal {E : Externals} (self : Task.t)
    (code : Z) (lines : list string) (server : list attempt) :
  400 <= code -> code <> 404 ->
  Task.events self (Responds code lines :: server) =
    ([Connect (Task.events_request self)], Raised (HTTPStatusError code)) /\
  (forall pre, Forall is_404 pre ->
     Task.events self (pre ++ Responds code lines :: server) =
       ((polling (Task.events_request self) (length pre)
           ++ [Connect (Task.events_request self)])%list,
        Raised (HTTPStatusError code))).
Proof.
  intros Hcode Hne.
  assert (Hone : Task.events self (Responds code lines :: server) =
            ([Connect (Task.events_request self)],
             Raised (HTTPStatusError code))).
  { cbn [Task.events Task.try_body]. unfold raise_for_status.
    rewrite (is_success_error code Hcode).
    destruct (code =? 404) eqn:Heq.
    - apply Z.eqb_eq in Heq. contradiction.
    - reflexivity. }
  split; [exact Hone|].
  intros pre Hpre. rewrite (events_polling self pre _ Hpre), Hone. reflexivity.
Qed.

Lemma events_other_error_is_fatal_witness :
  Task.events (E := sample_externals) sample_task
    [Responds 500 [jtext "{'msg': 'a'}"]]
  = ([Connect (Task.events_request sample_task)],
     Raised (HTTPStatusError 500)).
Proof.
  apply (proj1 (events_other_error_is_fatal sample_task 500
                  [jtext "{'msg': 'a'}"] [] ltac:(lia) ltac:(lia))).
Defined.

(** C7: the streaming request of [Task.events] passes on the
    TLS-verification option of the client but no timeout, whatever timeout
    the client holds, and every connection attempt of the generator issues
    this request: for the sample task, whose client has the timeout 120, the
    request of the first attempt carries [verify] and no timeout. *)
Theorem events_request_has_no_timeout :
  (forall self : Task.t,
     req_verify (Task.events_request self)
       = Some (negb (disable_ssl (Task.client self))) /\
     req_timeout (Task.events_request self) = None /\
     ~ carries_options (Task.client self) (Task.events_request self)) /\
  (forall (E : Externals) (self : Task.t) a server,
     hd_error (fst (Task.events self (a :: server)))
       = Some (Connect (Task.events_request self))) /\
  timeout (Task.client sample_task) = 120%float /\
  Task.events sample_task [Responds 200 []] =
    ([Connect
        {| req_method := GET;
           req_url := "http://localhost:4501/deployments/d1/tasks/t1/events";
           req_params := Some [("session_id", "s1")];
           req_json := None;
           req_files := None;
           req_verify := Some true;
           req_timeout := None |}],
     Done).
Proof.
  split; [|split; [|split; reflexivity]].
  - intros self. split; [reflexivity|]. split; [reflexivity|].
    intros [_ H]. discriminate H.
  - intros E self a server. cbn [Task.events].
    destruct (Task.try_body a) as [acts [[]|e]]; [reflexivity|].
    destruct e as [| |code| | | | |]; try reflexivity.
    destruct (negb (code =? 404)); [reflexivity|].
    destruct (Task.events self server). reflexivity.
Qed.

(** ** Coroutines: what holds of every run *)

Lemma returns_only_bind {A B : Type} (P : B -> Prop) (t : Async A)
    (f : A -> Async B) :
  (forall a, returns_only P (f a)) -> returns_only P (bind t f).
Proof.
  intros Hf. induction t as [a|e|rq k IH]; cbn.
  - apply Hf.
  - constructor.
  - constructor. intros o. apply IH.
Qed.

Lemma returns_only_lift {A : Type} (P : A -> Prop) (r : result A) :
  (forall a, r = Ok a -> P a) -> returns_only P (lift r).
Proof.
  intros H. destruct r as [a|e]; cbn; constructor. now apply H.
Qed.

Lemma returns_only_run {S A : Type} (handle : S -> Request -> reply * S)
    (P : A -> Prop) (t : Async A) :
  returns_only P t ->
  forall s a s' log, run handle t s = (Ok a, s', log) -> P a.
Proof.
  induction 1 as [a Ha|e|rq k _ IH]; intros s x s' log Hrun; cbn in Hrun.
  - now inversion Hrun; subst.
  - discriminate Hrun.
  - destruct (handle s rq) as [o s1].
    destruct (run handle (k o) s1) as [[r s2] log2] eqn:Hk.
    inversion Hrun; subst. eapply IH. exact Hk.
Qed.

Lemma awaits_only_bind {A B : Type} (Q : Request -> Prop) (t : Async A)
    (f : A -> Async B) :
  awaits_only Q t -> (forall a, awaits_only Q (f a)) ->
  awaits_only Q (bind t f).
Proof.
  intros Ht Hf. induction Ht as [a|e|rq k Hrq _ IH]; cbn.
  - apply Hf.
  - constructor.
  - constructor; [exact Hrq|]. intros o. apply IH.
Qed.

Lemma awaits_only_lift {A : Type} (Q : Request -> Prop) (r : result A) :
  awaits_only Q (lift r).
Proof. destruct r; constructor. Qed.

Lemma awaits_only_json {E : Externals} (Q : Request -> Prop) (r : Response) :
  awaits_only Q (Response_json r).
Proof. unfold Response_json. destruct (json_loads (text r)); constructor. Qed.

Lemma awaits_only_request (Q : Request -> Prop) (rq : Request) :
  Q rq -> awaits_only Q (Client_request rq).
Proof.
  intros H. constructor; [exact H|]. intros [r|e]; constructor.
Qed.

Lemma awaits_only_try_except {A B : Type} (Q : Request -> Prop)
    (body : Async A) (catches : exn -> bool) (handler : Async B)
    (rest : A -> Async B) :
  awaits_only Q body -> awaits_only Q handler ->
  (forall a, awaits_only Q (rest a)) ->
  awaits_only Q (try_except body catches handler rest).
Proof.
  intros Hb Hh Hr. induction Hb as [a|e|rq k Hrq _ IH]; cbn.
  - apply Hr.
  - destruct (catches e); [exact Hh|constructor].
  - constructor; [exact Hrq|]. intros o. apply IH.
Qed.

Lemma awaits_only_run {S A : Type} (handle : S -> Request -> reply * S)
    (Q : Request -> Prop) (t : Async A) :
  awaits_only Q t -> forall s, Forall Q (snd (run handle t s)).
Proof.
  induction 1 as [a|e|rq k Hrq _ IH]; intros s; cbn.
  - constructor.
  - constructor.
  - destruct (handle s rq) as [o s1]. specialize (IH o s1).
    destruct (run handle (k o) s1) as [[r s2] log]. cbn in *.
    now constructor.
Qed.

Ltac coroutine_requests :=
  repeat first
    [ apply awaits_only_bind; [|intros ?]
    | apply awaits_only_request; split; reflexivity
    | apply awaits_only_lift
    | apply awaits_only_json
    | match goal with
      | |- awaits_only _ (match ?x with _ => _ end) => destruct x
      end
    | constructor ].

(** Every request of the coroutine methods passes on both connection options
    of the client of the object. *)
Lemma coroutine_requests_carry_options {E : Externals} :
  (forall self session_id,
     awaits_only (carries_options (SessionCollection.client self))
       (SessionCollection.delete self session_id)) /\
  (forall self,
     awaits_only (carries_options (SessionCollection.client self))
       (SessionCollection.create self)) /\
  (forall self,
     awaits_only (carries_options (Task.client self)) (Task.results self)) /\
  (forall self task,
     awaits_only (carries_options (TaskCollection.client self))
       (TaskCollection.run self task)) /\
  (forall self task,
     awaits_only (carries_options (TaskCollection.client self))
       (TaskCollection.create self task)) /\
  (forall self,
     awaits_only (carries_options (Model.client self)) (Deployment.tasks self)) /\
  (forall self,
     awaits_only (carries_options (Model.client self))
       (Deployment.sessions self)) /\
  (forall self config,
     awaits_only (carries_options (DeploymentCollection.client self))
       (DeploymentCollection.create self config)) /\
  (forall self deployment_id,
     awaits_only (carries_options (DeploymentCollection.client self))
       (DeploymentCollection.get self deployment_id)) /\
  (forall self,
     awaits_only (carries_options (Model.client self)) (ApiServer.status self)) /\
  (forall self,
     awaits_only (carries_options (Model.client self))
       (ApiServer.deployments self)).
Proof.
  repeat split; intros;
    try (unfold ApiServer.status; apply awaits_only_try_except;
         [| |intros r; destruct (400 <=? status_code r)]);
    unfold SessionCollection.delete, SessionCollection.create, Task.results,
      TaskCollection.run, TaskCollection.create, Deployment.tasks,
      Deployment.sessions, DeploymentCollection.create,
      DeploymentCollection.get, ApiServer.deployments;
    coroutine_requests.
Qed.

(** ** The calling mode of created objects *)

Lemma Model_instance_mode (make_sync : bool) (c : Client) (i : json)
    (x : Model.t) :
  Model.instance make_sync c i = Ok x -> Model._instance_is_sync x = make_sync.
Proof.
  unfold Model.instance. destruct (validate_str i); cbn; intros H;
    inversion H; reflexivity.
Qed.

Lemma Task_instance_mode (make_sync : bool) (c : Client) (d i s : json)
    (x : Task.t) :
  Task.instance make_sync c d i s = Ok x -> Task._instance_is_sync x = make_sync.
Proof.
  unfold Task.instance.
  destruct (validate_str i), (validate_str d), (validate_str s); intros H;
    inversion H; reflexivity.
Qed.

Lemma dict_set_values {V : Type} (Q : V -> Prop) (d : dict V) (k : string)
    (v : V) :
  Forall (fun kv => Q (snd kv)) d -> Q v ->
  Forall (fun kv => Q (snd kv)) (dict_set d k v).
Proof.
  intros Hd Hv. induction Hd as [|[k' v'] d Hkv Hd IH]; cbn.
  - now repeat constructor.
  - destruct (String.eqb k' k); constructor; auto.
Qed.

Lemma comprehension_loop_values {T : Type} (Q : T -> Prop)
    (key : json -> result string) (value : json -> result T)
    (xs : list json) :
  (forall x v, value x = Ok v -> Q v) ->
  forall acc d,
    Forall (fun kv => Q (snd kv)) acc ->
    comprehension_loop key value xs acc = Ok d ->
    Forall (fun kv => Q (snd kv)) d.
Proof.
  intros Hvalue. induction xs as [|x xs IH]; intros acc d Hacc Hloop; cbn in Hloop.
  - now inversion Hloop; subst.
  - destruct (key x) as [k|e]; [|discriminate]. cbn in Hloop.
    destruct (value x) as [v|e] eqn:Hv; [|discriminate]. cbn in Hloop.
    eapply IH; [|exact Hloop]. apply dict_set_values; eauto.
Qed.

Lemma dict_comprehension_values {T : Type} (Q : T -> Prop) (iterable : json)
    (key : json -> result string) (value : json -> result T) (d : dict T) :
  (forall x v, value x = Ok v -> Q v) ->
  dict_comprehension iterable key value = Ok d ->
  Forall (fun kv => Q (snd kv)) d.
Proof.
  intros Hvalue. unfold dict_comprehension.
  destruct (py_iter iterable) as [xs|e]; [|discriminate]. cbn.
  apply comprehension_loop_values; auto.
Qed.

Lemma created_objects_keep_mode {E : Externals} :
  (forall self,
     returns_only
       (fun x => Model._instance_is_sync x
                 = SessionCollection._instance_is_sync self)
       (SessionCollection.create self)) /\
  (forall self task,
     returns_only
       (fun x => Task._instance_is_sync x
                 = TaskCollection._instance_is_sync self)
       (TaskCollection.create self task)) /\
  (forall self config,
     returns_only
       (fun x => Model._instance_is_sync x
                 = DeploymentCollection._instance_is_sync self)
       (DeploymentCollection.create self config)) /\
  (forall self deployment_id,
     returns_only
       (fun x => Model._instance_is_sync x
                 = DeploymentCollection._instance_is_sync self)
       (DeploymentCollection.get self deployment_id)) /\
  (forall self,
     returns_only
       (fun x => TaskCollection._instance_is_sync x
                 = Model._instance_is_sync self /\
                 Forall (fun kv => Task._instance_is_sync (snd kv)
                                   = Model._instance_is_sync self)
                   (TaskCollection.items x))
       (Deployment.tasks self)) /\
  (forall self,
     returns_only
       (fun x => SessionCollection._instance_is_sync x
                 = Model._instance_is_sync self /\
                 Forall (fun kv => Model._instance_is_sync (snd kv)
                                   = Model._instance_is_sync self)
                   (SessionCollection.items x))
       (Deployment.sessions self)) /\
  (forall self,
     returns_only
       (fun x => DeploymentCollection._instance_is_sync x
                 = Model._instance_is_sync self /\
                 Forall (fun kv => Model._instance_is_sync (snd kv)
                                   = Model._instance_is_sync self)
                   (DeploymentCollection.items x))
       (ApiServer.deployments self)).
Proof.
  repeat apply conj; intros.
  - unfold SessionCollection.create.
    do 3 (apply returns_only_bind; intros).
    apply returns_only_lift. intros x. apply Model_instance_mode.
  - unfold TaskCollection.create.
    do 2 (apply returns_only_bind; intros).
    apply returns_only_lift. intros x.
    destruct (py_getitem a0 "task_id"); [|discriminate].
    destruct (py_getitem a0 "session_id"); [|discriminate].
    apply Task_instance_mode.
  - unfold DeploymentCollection.create.
    do 2 (apply returns_only_bind; intros).
    apply returns_only_lift. intros x.
    destruct (py_get a0 "name"); [|discriminate].
    apply Model_instance_mode.
  - unfold DeploymentCollection.get.
    apply returns_only_bind; intros.
    apply returns_only_lift. intros x. apply Model_instance_mode.
  - unfold Deployment.tasks.
    do 2 (apply returns_only_bind; intros).
    destruct (dict_comprehension _ _ _) as [items|e] eqn:Hitems;
      [|constructor].
    cbn. constructor. cbn. split; [reflexivity|].
    eapply (dict_comprehension_values
              (fun v => Task._instance_is_sync v = Model._instance_is_sync self));
      [|exact Hitems].
    intros y v. cbn. discriminate.
  - unfold Deployment.sessions.
    do 2 (apply returns_only_bind; intros).
    destruct (dict_comprehension _ _ _) as [items|e] eqn:Hitems;
      [|constructor].
    cbn. constructor. cbn. split; [reflexivity|].
    eapply (dict_comprehension_values
              (fun v => Model._instance_is_sync v = Model._instance_is_sync self));
      [|exact Hitems].
    intros y v. cbn. discriminate.
  - unfold ApiServer.deployments.
    do 2 (apply returns_only_bind; intros).
    destruct (dict_comprehension _ _ _) as [items|e] eqn:Hitems;
      [|constructor].
    cbn. constructor. cbn. split; [reflexivity|].
    eapply (dict_comprehension_values
              (fun v => Model._instance_is_sync v = Model._instance_is_sync self));
      [|exact Hitems].
    intros y v. apply Model_instance_mode.
Qed.

(** C4: every method that returns a new resource object passes its own
    calling mode on: the session, task or deployment it returns, the
    collection it returns and every item of that collection are in the mode
    of the object the method was called on. *)
Theorem make_sync_is_inherited {E : Externals} {S : Type}
    (handle : S -> Request -> reply * S) (s s' : S) (log : list Request) :
  (forall self x,
     run handle (SessionCollection.create self) s = (Ok x, s', log) ->
     Model._instance_is_sync x = SessionCollection._instance_is_sync self) /\
  (forall self task x,
     run handle (TaskCollection.create self task) s = (Ok x, s', log) ->
     Task._instance_is_sync x = TaskCollection._instance_is_sync self) /\
  (forall self config x,
     run handle (DeploymentCollection.create self config) s = (Ok x, s', log) ->
     Model._instance_is_sync x = DeploymentCollection._instance_is_sync self) /\
  (forall self deployment_id x,
     run handle (DeploymentCollection.get self deployment_id) s
       = (Ok x, s', log) ->
     Model._instance_is_sync x = DeploymentCollection._instance_is_sync self) /\
  (forall self x,
     run handle (Deployment.tasks self) s = (Ok x, s', log) ->
     TaskCollection._instance_is_sync x = Model._instance_is_sync self /\
     forall k item, In (k, item) (TaskCollection.items x) ->
       Task._instance_is_sync item = Model._instance_is_sync self) /\
  (forall self x,
     run handle (Deployment.sessions self) s = (Ok x, s', log) ->
     SessionCollection._instance_is_sync x = Model._instance_is_sync self /\
     forall k item, In (k, item) (SessionCollection.items x) ->
       Model._instance_is_sync item = Model._instance_is_sync self) /\
  (forall self x,
     run handle (ApiServer.deployments self) s = (Ok x, s', log) ->
     DeploymentCollection._instance_is_sync x = Model._instance_is_sync self /\
     forall k item, In (k, item) (DeploymentCollection.items x) ->
       Model._instance_is_sync item = Model._instance_is_sync self).
Proof.
  destruct created_objects_keep_mode as (H1 & H2 & H3 & H4 & H5 & H6 & H7).
  repeat apply conj.
  - intros self x Hrun.
    exact (returns_only_run handle _ _ (H1 self) _ _ _ _ Hrun).
  - intros self task x Hrun.
    exact (returns_only_run handle _ _ (H2 self task) _ _ _ _ Hrun).
  - intros self config x Hrun.
    exact (returns_only_run handle _ _ (H3 self config) _ _ _ _ Hrun).
  - intros self deployment_id x Hrun.
    exact (returns_only_run handle _ _ (H4 self deployment_id) _ _ _ _ Hrun).
  - intros self x Hrun.
    destruct (returns_only_run handle _ _ (H5 self) _ _ _ _ Hrun) as [Hm Hi].
    split; [exact Hm|]. intros k item Hin.
    rewrite Forall_forall in Hi. exact (Hi _ Hin).
  - intros self x Hrun.
    destruct (returns_only_run handle _ _ (H6 self) _ _ _ _ Hrun) as [Hm Hi].
    split; [exact Hm|]. intros k item Hin.
    rewrite Forall_forall in Hi. exact (Hi _ Hin).
  - intros self x Hrun.
    destruct (returns_only_run handle _ _ (H7 self) _ _ _ _ Hrun) as [Hm Hi].
    split; [exact Hm|]. intros k item Hin.
    rewrite Forall_forall in Hi. exact (Hi _ Hin).
Qed.

Lemma make_sync_is_inherited_witness :
  (exists x log,
     run (serving "{'session_id': 's1'}")
       (SessionCollection.create (sample_sessions true)) tt = (Ok x, tt, log) /\
     Model._instance_is_sync x = true) /\
  (exists x log,
     run (serving "{'task_id': 't1', 'session_id': 's1'}")
       (TaskCollection.create (sample_tasks true) (JStr "input")) tt
       = (Ok x, tt, log) /\
     Task._instance_is_sync x = true) /\
  (exists x log,
     run (serving "{'name': 'd2'}")
       (DeploymentCollection.create (sample_deployments true) "name: d2") tt
       = (Ok x, tt, log) /\
     Model._instance_is_sync x = true) /\
  (exists x log,
     run (serving "{}")
       (DeploymentCollection.get (sample_deployments true) "d2") tt
       = (Ok x, tt, log) /\
     Model._instance_is_sync x = true) /\
  (exists x log,
     run (serving "[]") (Deployment.tasks (sample_deployment true)) tt
       = (Ok x, tt, log) /\
     TaskCollection._instance_is_sync x = true) /\
  (exists x log,
     run (serving "[]") (Deployment.sessions (sample_deployment true)) tt
       = (Ok x, tt, log) /\
     SessionCollection._instance_is_sync x = true) /\
  (exists x log,
     run (serving "['a', 'b']") (ApiServer.deployments (sample_apiserver true)) tt
       = (Ok x, tt, log) /\
     DeploymentCollection._instance_is_sync x = true /\
     exists item, In ("id", item) (DeploymentCollection.items x) /\
                  Model._instance_is_sync item = true).
Proof.
  repeat apply conj.
  - eexists; eexists; split; [vm_compute; reflexivity|].
    exact ((proj1 (make_sync_is_inherited (serving "{'session_id': 's1'}") tt tt _))
             (sample_sessions true) _ eq_refl).
  - eexists; eexists; split; [vm_compute; reflexivity|].
    exact ((proj1 (proj2 (make_sync_is_inherited (serving "{'task_id': 't1', 'session_id': 's1'}") tt tt _)))
             (sample_tasks true) (JStr "input") _ eq_refl).
  - eexists; eexists; split; [vm_compute; reflexivity|].
    exact ((proj1 (proj2 (proj2 (make_sync_is_inherited (serving "{'name': 'd2'}") tt tt _))))
             (sample_deployments true) "name: d2" _ eq_refl).
  - eexists; eexists; split; [vm_compute; reflexivity|].
    exact ((proj1 (proj2 (proj2 (proj2 (make_sync_is_inherited (serving "{}") tt tt _)))))
             (sample_deployments true) "d2" _ eq_refl).
  - eexists; eexists; split; [vm_compute; reflexivity|].
    exact (proj1 ((proj1 (proj2 (proj2 (proj2 (proj2 (make_sync_is_inherited (serving "[]") tt tt _))))))
                    (sample_deployment true) _ eq_refl)).
  - eexists; eexists; split; [vm_compute; reflexivity|].
    exact (proj1 ((proj1 (proj2 (proj2 (proj2 (proj2 (proj2 (make_sync_is_inherited (serving "[]") tt tt _)))))))
                    (sample_deployment true) _ eq_refl)).
  - eexists; eexists; split; [vm_compute; reflexivity|].
    pose proof (proj2 (proj2 (proj2 (proj2 (proj2 (proj2
              (make_sync_is_inherited (serving "['a', 'b']") tt tt _))))))
              (sample_apiserver true) _ eq_refl) as [Hm Hi].
    split; [exact Hm|].
    eexists; split; [left; reflexivity|].
    apply (Hi "id"). left; reflexivity.
Defined.

(** ** Listings *)

Lemma comprehension_loop_one_key {T : Type} (key : string)
    (value : json -> result T) (xs : list json) :
  forall acc d,
    (length acc <= 1)%nat ->
    (forall kv, In kv acc -> fst kv = key) ->
    comprehension_loop (fun _ => Ok key) value xs acc = Ok d ->
    (length d <= 1)%nat.
Proof.
  induction xs as [|x xs IH]; intros acc d Hlen Hkeys Hloop; cbn in Hloop.
  - now inversion Hloop; subst.
  - destruct (value x) as [v|e]; [|discriminate]. cbn in Hloop.
    apply (IH _ _) in Hloop; [exact Hloop| |].
    + destruct acc as [|[k' v'] [|kv acc]]; cbn in *; [lia| |lia].
      rewrite <- (Hkeys _ (or_introl eq_refl)). cbn.
      rewrite String.eqb_refl. cbn. lia.
    + intros kv Hin. destruct acc as [|[k' v'] [|kv' acc]]; cbn in *.
      * destruct Hin as [<-|[]]. reflexivity.
      * specialize (Hkeys _ (or_introl eq_refl)). cbn in Hkeys. subst k'.
        rewrite String.eqb_refl in Hin. destruct Hin as [<-|[]]. reflexivity.
      * lia.
Qed.

(** Whatever the server lists, the collection that [ApiServer.deployments]
    returns holds at most one item. *)
Lemma deployments_at_most_one_item {E : Externals} {S : Type}
    (handle : S -> Request -> reply * S) (self : ApiServer.t) (s s' : S)
    (x : DeploymentCollection.t) (log : list Request) :
  run handle (ApiServer.deployments self) s = (Ok x, s', log) ->
  (length (DeploymentCollection.items x) <= 1)%nat.
Proof.
  apply (returns_only_run handle
           (fun x => (length (DeploymentCollection.items x) <= 1)%nat)).
  unfold ApiServer.deployments.
  do 2 (apply returns_only_bind; intros).
  destruct (dict_comprehension _ _ _) as [items|e] eqn:Hitems; [|constructor].
  cbn. constructor. cbn.
  unfold dict_comprehension in Hitems.
  destruct (py_iter a0) as [xs|e]; [|discriminate]. cbn in Hitems.
  eapply comprehension_loop_one_key; [| |exact Hitems]; cbn; [lia|tauto].
Qed.

(** C5: for a list of two deployment names the collection that
    [ApiServer.deployments] returns holds one item, the last name, under the
    key ["id"]; for a list of one task (or session) definition
    [Deployment.tasks] (or [Deployment.sessions]) raises [AttributeError]
    and returns no collection. *)
Theorem listing_loses_members :
  run (serving "['a', 'b']") (ApiServer.deployments (sample_apiserver false)) tt
  = (Ok {| DeploymentCollection.client := local_client;
           DeploymentCollection._instance_is_sync := false;
           DeploymentCollection.items :=
             [("id", {| Model.client := local_client;
                        Model._instance_is_sync := false;
                        Model.id := "b" |})] |},
     tt,
     [{| req_method := GET;
         req_url := "http://localhost:4501/deployments/";
         req_params := None;
         req_json := None;
         req_files := None;
         req_verify := Some true;
         req_timeout := Some 120%float |}]) /\
  fst (fst (run (serving "[{'task_id': 't1', 'session_id': 's1'}]")
              (Deployment.tasks (sample_deployment false)) tt))
  = Err AttributeError /\
  fst (fst (run (serving "[{'session_id': 's1'}]")
              (Deployment.sessions (sample_deployment false)) tt))
  = Err AttributeError.
Proof. repeat split; vm_compute; reflexivity. Qed.

(** ** The status check *)

Lemma status_down {E : Externals} {S : Type}
    (handle : S -> Request -> reply * S) (self : ApiServer.t) (s s' : S) :
  (forall rq, handle s rq = (Failed ConnectError, s')) ->
  fst (fst (run handle (ApiServer.status self) s))
  = Ok {| Status.status := DOWN;
          Status.status_message := "API Server is down";
          Status.deployments := None |}.
Proof.
  intros H. unfold ApiServer.status. cbn. rewrite H. reflexivity.
Qed.

(** X4: with a status of 400 or more, the status check answers [UNHEALTHY],
    with the text of the body as message, when the body decodes as JSON, and
    raises the decoding error when it does not. *)
Lemma status_error_status {E : Externals} {S : Type}
    (handle : S -> Request -> reply * S) (self : ApiServer.t) (s s' : S)
    (r : Response) :
  (forall rq, handle s rq = (Responded r, s')) ->
  400 <= status_code r ->
  fst (fst (run handle (ApiServer.status self) s))
  = match json_loads (text r) with
    | Some _ => Ok {| Status.status := UNHEALTHY;
                      Status.status_message := text r;
                      Status.deployments := None |}
    | None => Err JSONDecodeError
    end.
Proof.
  intros H Hcode. unfold ApiServer.status. cbn. rewrite H. cbn.
  apply Z.leb_le in Hcode. rewrite Hcode. unfold Response_json.
  destruct (json_loads (text r)); reflexivity.
Qed.

Lemma fold_names {E : Externals} (names : list string) (description : string) :
  fold_left (fun description d => description ++ nl ++ "- " ++ format d)
    (map JStr names) description
  = fold_left (fun description name => description ++ nl ++ "- " ++ name)
      names description.
Proof.
  revert description. induction names as [|n names IH]; intros d; cbn.
  - reflexivity.
  - apply IH.
Qed.

Lemma validate_str_list_names (names : list string) :
  validate_str_list_items (map JStr names) = Ok names.
Proof.
  induction names as [|n names IH]; cbn; [reflexivity|]. now rewrite IH.
Qed.

(** X3: with a status below 400 and a JSON body whose [deployments] entry is
    a list of names that is not empty, the status check answers [HEALTHY],
    with one line for each name in the message and the names in the
    [deployments] field. *)
Lemma status_healthy {E : Externals} {S : Type}
    (handle : S -> Request -> reply * S) (self : ApiServer.t) (s s' : S)
    (r : Response) (fields : dict json) (name : string) (names : list string) :
  (forall rq, handle s rq = (Responded r, s')) ->
  status_code r < 400 ->
  json_loads (text r) = Some (JObj fields) ->
  dict_get fields "deployments" = Some (JArr (map JStr (name :: names))) ->
  fst (fst (run handle (ApiServer.status self) s))
  = Ok {| Status.status := HEALTHY;
          Status.status_message :=
            fold_left (fun description n => description ++ nl ++ "- " ++ n)
              (name :: names)
              ("Llama Deploy is up and running." ++ nl ++ "Active deployments:");
          Status.deployments := Some (name :: names) |}.
Proof.
  intros H Hcode Hbody Hd. unfold ApiServer.status. cbn [try_except Client_request run].
  rewrite H. cbn [try_except].
  apply Z.ltb_lt in Hcode. rewrite Z.ltb_antisym in Hcode.
  apply negb_true_iff in Hcode. rewrite Hcode.
  unfold Response_json. rewrite Hbody. cbn [bind py_get]. rewrite Hd.
  cbn [rbind truthy map py_iter].
  rewrite (fold_names (name :: names)).
  unfold Status.init, validate_str_list.
  change (JStr name :: map JStr names) with (map JStr (name :: names)).
  rewrite (validate_str_list_names (name :: names)). reflexivity.
Qed.

(** C3: a connection failure gives [DOWN] and a 200 answer listing the
    deployments [a] and [b] gives [HEALTHY] with both names in the message
    and in the [deployments] field, but an answer with status 503 whose body
    is not JSON does not give [UNHEALTHY]: the status check raises
    [JSONDecodeError]. *)
Theorem status_mapping_breaks_on_error_page :
  fst (fst (run (always (Failed ConnectError))
              (ApiServer.status (sample_apiserver false)) tt))
  = Ok {| Status.status := DOWN;
          Status.status_message := "API Server is down";
          Status.deployments := None |} /\
  fst (fst (run (serving "{'deployments': ['a', 'b']}")
              (ApiServer.status (sample_apiserver false)) tt))
  = Ok {| Status.status := HEALTHY;
          Status.status_message :=
            "Llama Deploy is up and running." ++ nl ++ "Active deployments:"
              ++ nl ++ "- a" ++ nl ++ "- b";
          Status.deployments := Some ["a"; "b"] |} /\
  fst (fst (run (always (Responded
                           {| status_code := 503;
                              text := "<html>Service Unavailable</html>" |}))
              (ApiServer.status (sample_apiserver false)) tt))
  = Err JSONDecodeError.
Proof. repeat split; vm_compute; reflexivity. Qed.

(** C8: for the answer with status 500 and the body
    [Internal Server Error], which is not JSON, the status check does not
    return a status: it raises [JSONDecodeError], after its one request. *)
Theorem status_raises_on_plain_text_error :
  run (always (Responded {| status_code := 500;
                            text := "Internal Server Error" |}))
    (ApiServer.status (sample_apiserver false)) tt
  = (Err JSONDecodeError, tt,
     [{| req_method := GET;
         req_url := "http://localhost:4501/status/";
         req_params := None;
         req_json := None;
         req_files := None;
         req_verify := Some true;
         req_timeout := Some 120%float |}]).
Proof. vm_compute; reflexivity. Qed.

(** ** Task results *)

(** C10: [Task.results] returns a result exactly when the request is
    answered and the response body decodes to a JSON string whose content
    validates as the JSON text of a [TaskResult]; when the body decodes to
    a JSON object it raises [ValidationError]. *)
Theorem results_need_doubly_encoded_body {E : Externals} {S : Type}
    (handle : S -> Request -> reply * S) (self : Task.t) (s s' : S)
    (o : reply) :
  (forall rq, handle s rq = (o, s')) ->
  (forall x,
     fst (fst (run handle (Task.results self) s)) = Ok x <->
     exists r str, o = Responded r /\
                   json_loads (text r) = Some (JStr str) /\
                   model_validate_json str = Some x) /\
  (forall r fields,
     o = Responded r ->
     json_loads (text r) = Some (JObj fields) ->
     fst (fst (run handle (Task.results self) s)) = Err ValidationError).
Proof.
  intros H.
  assert (Hrun : fst (fst (run handle (Task.results self) s)) =
            match o with
            | Failed e => Err e
            | Responded r =>
                match json_loads (text r) with
                | None => Err JSONDecodeError
                | Some (JStr str) =>
                    match model_validate_json str with
                    | Some x => Ok x
                    | None => Err ValidationError
                    end
                | Some _ => Err ValidationError
                end
            end).
  { unfold Task.results. cbn. rewrite H. destruct o as [r|e]; [|reflexivity].
    cbn. unfold Response_json.
    destruct (json_loads (text r)) as [[| | | |str| |]|]; try reflexivity.
    cbn. destruct (model_validate_json str); reflexivity. }
  rewrite Hrun. split.
  - intros x. split.
    + destruct o as [r|e]; [|discriminate].
      destruct (json_loads (text r)) as [[| | | |str| |]|] eqn:Hbody;
        try discriminate.
      destruct (model_validate_json str) as [y|] eqn:Hy; [|discriminate].
      intros Hx. inversion Hx; subst. now exists r, str.
    + intros (r & str & -> & -> & ->). reflexivity.
  - intros r fields -> ->. reflexivity.
Qed.

Lemma results_need_doubly_encoded_body_witness :
  fst (fst (run (serving "'{\'task_id\': \'t1\', \'result\': \'42\'}'")
              (Task.results sample_task) tt))
  = Ok {| task_id := "t1"; result_text := "42" |} /\
  fst (fst (run (serving "{'task_id': 't1', 'result': '42'}")
              (Task.results sample_task) tt))
  = Err ValidationError.
Proof.
  split.
  - apply (proj2 (proj1 (results_need_doubly_encoded_body
                    (E := sample_externals)
                    (serving "'{\'task_id\': \'t1\', \'result\': \'42\'}'")
                    sample_task tt tt _ (fun rq => eq_refl))
                  {| task_id := "t1"; result_text := "42" |})).
    eexists; exists (jtext "{'task_id': 't1', 'result': '42'}").
    split; [reflexivity|]. split; vm_compute; reflexivity.
  - apply (proj2 (results_need_doubly_encoded_body
                    (E := sample_externals)
                    (serving "{'task_id': 't1', 'result': '42'}")
                    sample_task tt tt _ (fun rq => eq_refl))
             {| status_code := 200;
                text := jtext "{'task_id': 't1', 'result': '42'}" |}
             [("task_id", JStr "t1"); ("result", JStr "42")]
             eq_refl).
    vm_compute; reflexivity.
Defined.

(** * Further properties of the methods *)

(** ** Running a method that starts with its request *)

Lemma run_lift {S A : Type} (handle : S -> Request -> reply * S)
    (r : result A) (s : S) :
  run handle (lift r) s = (r, s, []).
Proof. now destruct r. Qed.

Lemma run_no_await {S A : Type} (handle : S -> Request -> reply * S)
    (t : Async A) :
  awaits_only (fun _ => False) t ->
  forall s, run handle t s = (result_of (run handle t s), s, []).
Proof.
  induction 1 as [a|e|rq k Hrq _ _]; intros s; [reflexivity|reflexivity|].
  contradiction.
Qed.

Lemma run_request_bind {S A : Type} (handle : S -> Request -> reply * S)
    (rq : Request) (f : Response -> Async A) (s : S) :
  run handle (bind (Client_request rq) f) s =
    match handle s rq with
    | (Responded r, s') =>
        let '(x, s'', log) := run handle (f r) s' in (x, s'', rq :: log)
    | (Failed e, s') => (Err e, s', [rq])
    end.
Proof.
  cbn. destruct (handle s rq) as [[r|e] s']; reflexivity.
Qed.

(** A method that awaits its request and then only computes: one request
    on every run. *)
Lemma run_request_then {S A : Type} (handle : S -> Request -> reply * S)
    (rq : Request) (f : Response -> Async A) (s : S) :
  (forall r, awaits_only (fun _ => False) (f r)) ->
  run handle (bind (Client_request rq) f) s =
    (match fst (handle s rq) with
     | Responded r => result_of (run handle (f r) (snd (handle s rq)))
     | Failed e => Err e
     end,
     snd (handle s rq), [rq]).
Proof.
  intros Hf. rewrite run_request_bind.
  destruct (handle s rq) as [[r|e] s']; [|reflexivity]. cbn [fst snd].
  rewrite (run_no_await handle _ (Hf r) s'). reflexivity.
Qed.

Lemma run_json_bind {E : Externals} {S A : Type}
    (handle : S -> Request -> reply * S) (r : Response)
    (f : json -> Async A) (s : S) :
  run handle (bind (Response_json r) f) s =
    match json_loads (text r) with
    | Some v => run handle (f v) s
    | None => (Err JSONDecodeError, s, [])
    end.
Proof.
  unfold Response_json. now destruct (json_loads (text r)).
Qed.

Ltac no_await :=
  intros;
  repeat first
    [ apply awaits_only_bind; [|intros ?]
    | apply awaits_only_lift
    | apply awaits_only_json
    | match goal with
      | |- awaits_only _ (match ?x with _ => _ end) => destruct x
      end
    | constructor ].

Lemma run_try_request {S A : Type} (handle : S -> Request -> reply * S)
    (rq : Request) (catches : exn -> bool) (handler : Async A)
    (rest : Response -> Async A) (s : S) :
  awaits_only (fun _ => False) handler ->
  (forall r, awaits_only (fun _ => False) (rest r)) ->
  run handle (try_except (Client_request rq) catches handler rest) s =
    (match fst (handle s rq) with
     | Responded r => result_of (run handle (rest r) (snd (handle s rq)))
     | Failed e =>
         if catches e
         then result_of (run handle handler (snd (handle s rq)))
         else Err e
     end,
     snd (handle s rq), [rq]).
Proof.
  intros Hh Hr. cbn. destruct (handle s rq) as [[r|e] s']; cbn.
  - rewrite (run_no_await handle _ (Hr r) s'). reflexivity.
  - destruct (catches e); [|reflexivity].
    rewrite (run_no_await handle _ Hh s'). reflexivity.
Qed.

Lemma status_rest_no_await {E : Externals} (r : Response) :
  awaits_only (fun _ => False)
    (if 400 <=? status_code r then
       body <- Response_json r ;;
       Return {| Status.status := UNHEALTHY;
                 Status.status_message := text r;
                 Status.deployments := None |}
     else
       let description := "Llama Deploy is up and running." in
       body <- Response_json r ;;
       lift (let? found := py_get body "deployments" in
             let deployments := if truthy found then found else JArr [] in
             let? description :=
               if truthy deployments then
                 let description :=
                   description ++ nl ++ "Active deployments:" in
                 let? ds := py_iter deployments in
                 Ok (fold_left
                       (fun description d =>
                          description ++ nl ++ "- " ++ format d)
                       ds description)
               else
                 Ok (description ++ nl
                       ++ "Currently there are no active deployments") in
             Status.init HEALTHY description deployments)).
Proof. destruct (400 <=? status_code r); no_await. Qed.


(** ** Failures of the HTTP layer *)

(** X2: when the HTTP layer raises instead of answering, every method
    raises that same exception, with one exception to the rule: the status
    check turns [ConnectError], and nothing else, into the status [DOWN]. *)
Theorem transport_errors_propagate {E : Externals} {S : Type}
    (handle : S -> Request -> reply * S) (s s' : S) (e : exn) :
  (forall rq, handle s rq = (Failed e, s')) ->
  (forall self session_id,
     result_of (run handle (SessionCollection.delete self session_id) s)
     = Err e) /\
  (forall self,
     result_of (run handle (SessionCollection.create self) s) = Err e) /\
  (forall self, result_of (run handle (Task.results self) s) = Err e) /\
  (forall self task,
     result_of (run handle (TaskCollection.run self task) s) = Err e) /\
  (forall self task,
     result_of (run handle (TaskCollection.create self task) s) = Err e) /\
  (forall self, result_of (run handle (Deployment.tasks self) s) = Err e) /\
  (forall self, result_of (run handle (Deployment.sessions self) s) = Err e) /\
  (forall self config,
     result_of (run handle (DeploymentCollection.create self config) s)
     = Err e) /\
  (forall self deployment_id,
     result_of (run handle (DeploymentCollection.get self deployment_id) s)
     = Err e) /\
  (forall self,
     result_of (run handle (ApiServer.deployments self) s) = Err e) /\
  (forall self,
     result_of (run handle (ApiServer.status self) s) =
     if is_ConnectError e
     then Ok {| Status.status := DOWN;
                Status.status_message := "API Server is down";
                Status.deployments := None |}
     else Err e).
Proof.
  intros H.
  repeat apply conj; intros;
    unfold SessionCollection.delete, SessionCollection.create, Task.results,
      TaskCollection.run, TaskCollection.create, Deployment.tasks,
      Deployment.sessions, DeploymentCollection.create,
      DeploymentCollection.get, ApiServer.deployments, ApiServer.status;
    first
      [ rewrite run_request_then by no_await; rewrite H; reflexivity
      | rewrite run_try_request
          by (first [apply status_rest_no_await | no_await]);
        rewrite H; cbn; destruct (is_ConnectError e); reflexivity ].
Qed.

Lemma transport_errors_propagate_witness :
  result_of (run (always (Failed (TransportError "ReadTimeout")))
               (ApiServer.status (sample_apiserver false)) tt)
  = Err (TransportError "ReadTimeout") /\
  result_of (run (always (Failed (TransportError "ReadTimeout")))
               (Deployment.tasks (sample_deployment false)) tt)
  = Err (TransportError "ReadTimeout").
Proof.
  split.
  - apply (proj2 (proj2 (proj2 (proj2 (proj2 (proj2 (proj2 (proj2 (proj2 (proj2
             (transport_errors_propagate (E := sample_externals)
                (always (Failed (TransportError "ReadTimeout"))) tt tt
                (TransportError "ReadTimeout")
                (fun rq => eq_refl)))))))))))
             (sample_apiserver false)).
  - apply (proj1 (proj2 (proj2 (proj2 (proj2 (proj2
             (transport_errors_propagate (E := sample_externals)
                (always (Failed (TransportError "ReadTimeout"))) tt tt
                (TransportError "ReadTimeout")
                (fun rq => eq_refl)))))))
             (sample_deployment false)).
Defined.

(** ** The status check, case by case *)

Lemma status_healthy_witness :
  result_of (run (serving "{'deployments': ['a', 'b', 'c'], 'max': 10}")
               (ApiServer.status (sample_apiserver false)) tt)
  = Ok {| Status.status := HEALTHY;
          Status.status_message :=
            "Llama Deploy is up and running." ++ nl ++ "Active deployments:"
              ++ nl ++ "- a" ++ nl ++ "- b" ++ nl ++ "- c";
          Status.deployments := Some ["a"; "b"; "c"] |}.
Proof.
  apply (status_healthy (E := sample_externals)
           (serving "{'deployments': ['a', 'b', 'c'], 'max': 10}")
           (sample_apiserver false) tt tt
           {| status_code := 200;
              text := jtext "{'deployments': ['a', 'b', 'c'], 'max': 10}" |}
           [("deployments", JArr [JStr "a"; JStr "b"; JStr "c"]);
            ("max", JInt 10)]
           "a" ["b"; "c"]
           (fun rq => eq_refl));
    [cbn; lia | vm_compute; reflexivity | reflexivity].
Defined.

Lemma status_error_status_witness :
  result_of (run (always (Responded
                            {| status_code := 404;
                               text := jtext "{'detail': 'Not Found'}" |}))
               (ApiServer.status (sample_apiserver false)) tt)
  = Ok {| Status.status := UNHEALTHY;
          Status.status_message := jtext "{'detail': 'Not Found'}";
          Status.deployments := None |}.
Proof.
  apply (status_error_status (E := sample_externals)
           (always (Responded
                      {| status_code := 404;
                         text := jtext "{'detail': 'Not Found'}" |}))
           (sample_apiserver false) tt tt
           {| status_code := 404; text := jtext "{'detail': 'Not Found'}" |}
           (fun rq => eq_refl)).
  cbn; lia.
Defined.

(** X5: with a status below 400, the status check answers [HEALTHY] with
    an empty deployment list and the message that there are no active
    deployments when the JSON object of the body has no [deployments]
    entry or a false one ([null], [[]], [0], ...); it raises
    [AttributeError] when the body is JSON but not an object, and
    [JSONDecodeError] when the body is not JSON. *)
Theorem status_without_deployments {E : Externals} {S : Type}
    (handle : S -> Request -> reply * S) (self : ApiServer.t) (s s' : S)
    (r : Response) :
  (forall rq, handle s rq = (Responded r, s')) ->
  status_code r < 400 ->
  (forall fields,
     json_loads (text r) = Some (JObj fields) ->
     match dict_get fields "deployments" with
     | Some d => truthy d = false
     | None => True
     end ->
     result_of (run handle (ApiServer.status self) s)
     = Ok {| Status.status := HEALTHY;
             Status.status_message :=
               "Llama Deploy is up and running." ++ nl
                 ++ "Currently there are no active deployments";
             Status.deployments := Some [] |}) /\
  (forall v,
     json_loads (text r) = Some v ->
     (forall fields, v <> JObj fields) ->
     result_of (run handle (ApiServer.status self) s) = Err AttributeError) /\
  (json_loads (text r) = None ->
   result_of (run handle (ApiServer.status self) s) = Err JSONDecodeError).
Proof.
  intros H Hcode.
  apply Z.ltb_lt in Hcode. rewrite Z.ltb_antisym in Hcode.
  apply negb_true_iff in Hcode.
  repeat apply conj.
  - intros fields Hbody Hd. unfold result_of, ApiServer.status.
    cbn [try_except Client_request run]. rewrite H. cbn [try_except].
    rewrite Hcode. unfold Response_json. rewrite Hbody. cbn [bind py_get].
    destruct (dict_get fields "deployments") as [d|].
    + cbn [rbind]. rewrite Hd. reflexivity.
    + reflexivity.
  - intros v Hbody Hv. unfold result_of, ApiServer.status.
    cbn [try_except Client_request run]. rewrite H. cbn [try_except].
    rewrite Hcode. unfold Response_json. rewrite Hbody. cbn [bind].
    destruct v; try reflexivity. now destruct (Hv kvs).
  - intros Hbody. unfold result_of, ApiServer.status.
    cbn [try_except Client_request run]. rewrite H. cbn [try_except].
    rewrite Hcode. unfold Response_json. rewrite Hbody. reflexivity.
Qed.

Lemma status_without_deployments_witness :
  result_of (run (serving "{'deployments': null}")
               (ApiServer.status (sample_apiserver false)) tt)
  = Ok {| Status.status := HEALTHY;
          Status.status_message :=
            "Llama Deploy is up and running." ++ nl
              ++ "Currently there are no active deployments";
          Status.deployments := Some [] |} /\
  result_of (run (serving "['a', 'b']")
               (ApiServer.status (sample_apiserver false)) tt)
  = Err AttributeError.
Proof.
  split.
  - apply (proj1 (status_without_deployments (E := sample_externals)
                    (serving "{'deployments': null}")
                    (sample_apiserver false) tt tt
                    {| status_code := 200;
                       text := jtext "{'deployments': null}" |}
                    (fun rq => eq_refl) ltac:(cbn; lia))
             [("deployments", JNull)]);
      vm_compute; reflexivity.
  - apply (proj1 (proj2 (status_without_deployments (E := sample_externals)
                    (serving "['a', 'b']")
                    (sample_apiserver false) tt tt
                    {| status_code := 200; text := jtext "['a', 'b']" |}
                    (fun rq => eq_refl) ltac:(cbn; lia)))
             (JArr [JStr "a"; JStr "b"]));
      [vm_compute; reflexivity | discriminate].
Defined.

(** ** Listings, case by case *)

Lemma comprehension_loop_last {T : Type} (value : json -> result T)
    (mk : json -> T) (xs : list json) :
  forall acc last,
    Forall (fun x => value x = Ok (mk x)) (xs ++ [last])%list ->
    acc = [] \/ (exists v, acc = [("id", v)]) ->
    comprehension_loop (fun _ => Ok "id") value (xs ++ [last])%list acc
    = Ok [("id", mk last)].
Proof.
  induction xs as [|x xs IH]; intros acc last Hvalue Hacc; cbn in *;
    inversion Hvalue as [|y ys Hx Hrest]; subst; rewrite Hx; cbn.
  - destruct Hacc as [->|[v ->]]; reflexivity.
  - apply IH; [exact Hrest|]. right.
    destruct Hacc as [->|[v ->]]; eexists; reflexivity.
Qed.

(** X6: when the body of the answer is a JSON list of names,
    [ApiServer.deployments] returns a collection in the mode and with the
    client of the server object; it is empty for the empty list, and for
    any longer list it holds one item only, under the key ["id"]: the
    deployment of the last name. *)
Theorem deployments_keeps_last_name {E : Externals} {S : Type}
    (handle : S -> Request -> reply * S) (self : ApiServer.t) (s s' : S)
    (r : Response) :
  (forall rq, handle s rq = (Responded r, s')) ->
  (json_loads (text r) = Some (JArr []) ->
   result_of (run handle (ApiServer.deployments self) s)
   = Ok {| DeploymentCollection.client := Model.client self;
           DeploymentCollection._instance_is_sync :=
             Model._instance_is_sync self;
           DeploymentCollection.items := [] |}) /\
  (forall names last,
     json_loads (text r) = Some (JArr (map JStr (names ++ [last]))) ->
     result_of (run handle (ApiServer.deployments self) s)
     = Ok {| DeploymentCollection.client := Model.client self;
             DeploymentCollection._instance_is_sync :=
               Model._instance_is_sync self;
             DeploymentCollection.items :=
               [("id", {| Model.client := Model.client self;
                          Model._instance_is_sync :=
                            Model._instance_is_sync self;
                          Model.id := last |})] |}).
Proof.
  intros H. split.
  - intros Hbody. unfold ApiServer.deployments.
    rewrite run_request_then by no_await. rewrite H. cbn [fst snd result_of].
    rewrite run_json_bind, Hbody. reflexivity.
  - intros names last Hbody. unfold ApiServer.deployments.
    rewrite run_request_then by no_await. rewrite H. cbn [fst snd result_of].
    rewrite run_json_bind, Hbody. unfold dict_comprehension. cbn [py_iter rbind].
    rewrite map_app. cbn [map].
    rewrite (comprehension_loop_last _
               (fun name =>
                  {| Model.client := Model.client self;
                     Model._instance_is_sync := Model._instance_is_sync self;
                     Model.id := match name with
                                 | JStr n => n
                                 | _ => EmptyString
                                 end |})).
    + reflexivity.
    + apply Forall_app. split; [|now repeat constructor].
      apply Forall_forall. intros x Hx. apply in_map_iff in Hx.
      destruct Hx as (n & <- & _). reflexivity.
    + now left.
Qed.

Lemma deployments_keeps_last_name_witness :
  result_of (run (serving "['a', 'b', 'c']")
               (ApiServer.deployments (sample_apiserver true)) tt)
  = Ok {| DeploymentCollection.client := local_client;
          DeploymentCollection._instance_is_sync := true;
          DeploymentCollection.items :=
            [("id", {| Model.client := local_client;
                       Model._instance_is_sync := true;
                       Model.id := "c" |})] |}.
Proof.
  apply (proj2 (deployments_keeps_last_name (E := sample_externals)
                  (serving "['a', 'b', 'c']") (sample_apiserver true) tt tt
                  {| status_code := 200; text := jtext "['a', 'b', 'c']" |}
                  (fun rq => eq_refl))
           ["a"; "b"] "c").
  vm_compute; reflexivity.
Defined.

(** X7: when the body of the answer decodes to the empty list,
    [Deployment.tasks] and [Deployment.sessions] return an empty collection
    of this deployment, with its client and mode; when it decodes to a list
    that is not empty they raise [AttributeError], and when it decodes to
    [null], a boolean or a number they raise [TypeError]. *)
Theorem tasks_and_sessions_listing {E : Externals} {S : Type}
    (handle : S -> Request -> reply * S) (self : Deployment.t) (s s' : S)
    (r : Response) (v : json) :
  (forall rq, handle s rq = (Responded r, s')) ->
  json_loads (text r) = Some v ->
  (v = JArr [] ->
   result_of (run handle (Deployment.tasks self) s)
   = Ok {| TaskCollection.client := Model.client self;
           TaskCollection._instance_is_sync := Model._instance_is_sync self;
           TaskCollection.items := [];
           TaskCollection.deployment_id := Model.id self |} /\
   result_of (run handle (Deployment.sessions self) s)
   = Ok {| SessionCollection.client := Model.client self;
           SessionCollection._instance_is_sync := Model._instance_is_sync self;
           SessionCollection.items := [];
           SessionCollection.deployment_id := Model.id self |}) /\
  (forall x xs, v = JArr (x :: xs) ->
   result_of (run handle (Deployment.tasks self) s) = Err AttributeError /\
   result_of (run handle (Deployment.sessions self) s) = Err AttributeError) /\
  (v = JNull \/ (exists b, v = JBool b) \/ (exists z, v = JInt z)
     \/ (exists f, v = JFloat f) ->
   result_of (run handle (Deployment.tasks self) s) = Err TypeError /\
   result_of (run handle (Deployment.sessions self) s) = Err TypeError).
Proof.
  intros H Hbody.
  assert (Ht : result_of (run handle (Deployment.tasks self) s) =
            match py_iter v with
            | Err e => Err e
            | Ok [] =>
                Ok {| TaskCollection.client := Model.client self;
                      TaskCollection._instance_is_sync :=
                        Model._instance_is_sync self;
                      TaskCollection.items := [];
                      TaskCollection.deployment_id := Model.id self |}
            | Ok (_ :: _) => Err AttributeError
            end).
  { unfold Deployment.tasks.
    rewrite run_request_then by no_await. rewrite H. cbn [fst snd result_of].
    rewrite run_json_bind, Hbody. unfold dict_comprehension.
    destruct (py_iter v) as [[|x xs]|e]; reflexivity. }
  assert (Hs : result_of (run handle (Deployment.sessions self) s) =
            match py_iter v with
            | Err e => Err e
            | Ok [] =>
                Ok {| SessionCollection.client := Model.client self;
                      SessionCollection._instance_is_sync :=
                        Model._instance_is_sync self;
                      SessionCollection.items := [];
                      SessionCollection.deployment_id := Model.id self |}
            | Ok (_ :: _) => Err AttributeError
            end).
  { unfold Deployment.sessions.
    rewrite run_request_then by no_await. rewrite H. cbn [fst snd result_of].
    rewrite run_json_bind, Hbody. unfold dict_comprehension.
    destruct (py_iter v) as [[|x xs]|e]; reflexivity. }
  rewrite Ht, Hs. repeat apply conj.
  - intros ->. now split.
  - intros x xs ->. now split.
  - intros [->|[[b ->]|[[z ->]|[f ->]]]]; now split.
Qed.

Lemma tasks_and_sessions_listing_witness :
  result_of (run (serving "[]") (Deployment.tasks (sample_deployment false)) tt)
  = Ok {| TaskCollection.client := local_client;
          TaskCollection._instance_is_sync := false;
          TaskCollection.items := [];
          TaskCollection.deployment_id := "d1" |} /\
  result_of (run (serving "['s1', 's2']")
               (Deployment.sessions (sample_deployment false)) tt)
  = Err AttributeError /\
  result_of (run (serving "null")
               (Deployment.sessions (sample_deployment false)) tt)
  = Err TypeError.
Proof.
  repeat apply conj.
  - apply (proj1 (proj1 (tasks_and_sessions_listing (E := sample_externals)
                    (serving "[]") (sample_deployment false) tt tt
                    {| status_code := 200; text := jtext "[]" |} (JArr [])
                    (fun rq => eq_refl) eq_refl) eq_refl)).
  - apply (proj2 (proj1 (proj2 (tasks_and_sessions_listing
                    (E := sample_externals)
                    (serving "['s1', 's2']") (sample_deployment false) tt tt
                    {| status_code := 200; text := jtext "['s1', 's2']" |}
                    (JArr [JStr "s1"; JStr "s2"])
                    (fun rq => eq_refl) eq_refl))
                  (JStr "s1") [JStr "s2"] eq_refl)).
  - apply (proj2 (proj2 (proj2 (tasks_and_sessions_listing
                    (E := sample_externals)
                    (serving "null") (sample_deployment false) tt tt
                    {| status_code := 200; text := jtext "null" |} JNull
                    (fun rq => eq_refl) eq_refl))
                  (or_introl eq_refl))).
Defined.

(** ** What a method reads of the answer *)

Lemma result_no_await {S1 S2 A : Type} (handle1 : S1 -> Request -> reply * S1)
    (handle2 : S2 -> Request -> reply * S2) (t : Async A) :
  awaits_only (fun _ => False) t ->
  forall s1 s2,
    result_of (run handle1 t s1) = result_of (run handle2 t s2).
Proof.
  induction 1 as [a|e|rq k Hrq _ _]; intros s1 s2;
    [reflexivity|reflexivity|contradiction].
Qed.

(** X8: [DeploymentCollection.get] and [SessionCollection.delete] read
    nothing of the answer: whatever its status and body, [get] returns the
    deployment of the id it was asked for, with the client and mode of the
    collection, and [delete] returns [None]. *)
Theorem get_and_delete_ignore_response {E : Externals} {S : Type}
    (handle : S -> Request -> reply * S) (s s' : S) (r : Response) :
  (forall rq, handle s rq = (Responded r, s')) ->
  (forall self deployment_id,
     result_of (run handle (DeploymentCollection.get self deployment_id) s)
     = Ok {| Model.client := DeploymentCollection.client self;
             Model._instance_is_sync :=
               DeploymentCollection._instance_is_sync self;
             Model.id := deployment_id |}) /\
  (forall self session_id,
     result_of (run handle (SessionCollection.delete self session_id) s)
     = Ok tt).
Proof.
  intros H. split; intros.
  - unfold DeploymentCollection.get.
    rewrite run_request_then by no_await. rewrite H. reflexivity.
  - unfold SessionCollection.delete.
    rewrite run_request_then by no_await. rewrite H. reflexivity.
Qed.

Lemma get_and_delete_ignore_response_witness :
  result_of (run (always (Responded {| status_code := 404;
                                       text := "no such deployment" |}))
               (DeploymentCollection.get (sample_deployments false) "ghost") tt)
  = Ok {| Model.client := local_client;
          Model._instance_is_sync := false;
          Model.id := "ghost" |} /\
  result_of (run (always (Responded {| status_code := 404;
                                       text := "no such deployment" |}))
               (SessionCollection.delete (sample_sessions false) "s9") tt)
  = Ok tt.
Proof.
  split.
  - apply (proj1 (get_and_delete_ignore_response (E := sample_externals)
                    (always (Responded {| status_code := 404;
                                          text := "no such deployment" |}))
                    tt tt _ (fun rq => eq_refl))).
  - apply (proj2 (get_and_delete_ignore_response (E := sample_externals)
                    (always (Responded {| status_code := 404;
                                          text := "no such deployment" |}))
                    tt tt _ (fun rq => eq_refl))).
Defined.

Ltac same_body handle1 handle2 H1 H2 Htext :=
  rewrite (run_request_then handle1) by no_await;
  rewrite (run_request_then handle2) by no_await;
  rewrite H1, H2;
  cbn [fst snd result_of]; rewrite ?run_json_bind; unfold Response_json;
  rewrite ?Htext;
  try match goal with
      | |- context [json_loads ?t] => destruct (json_loads t)
      end;
  try reflexivity; apply result_no_await; no_await.

(** X9: apart from the status check, no coroutine method looks at the
    status code of the answer: two answers with the same body give the same
    result (the same value or the same exception), whatever their status
    codes. *)
Theorem only_status_reads_the_status_code {E : Externals} {S1 S2 : Type}
    (handle1 : S1 -> Request -> reply * S1)
    (handle2 : S2 -> Request -> reply * S2)
    (s1 s1' : S1) (s2 s2' : S2) (r1 r2 : Response) :
  (forall rq, handle1 s1 rq = (Responded r1, s1')) ->
  (forall rq, handle2 s2 rq = (Responded r2, s2')) ->
  text r1 = text r2 ->
  (forall self session_id,
     result_of (run handle1 (SessionCollection.delete self session_id) s1)
     = result_of (run handle2 (SessionCollection.delete self session_id) s2)) /\
  (forall self,
     result_of (run handle1 (SessionCollection.create self) s1)
     = result_of (run handle2 (SessionCollection.create self) s2)) /\
  (forall self,
     result_of (run handle1 (Task.results self) s1)
     = result_of (run handle2 (Task.results self) s2)) /\
  (forall self task,
     result_of (run handle1 (TaskCollection.run self task) s1)
     = result_of (run handle2 (TaskCollection.run self task) s2)) /\
  (forall self task,
     result_of (run handle1 (TaskCollection.create self task) s1)
     = result_of (run handle2 (TaskCollection.create self task) s2)) /\
  (forall self,
     result_of (run handle1 (Deployment.tasks self) s1)
     = result_of (run handle2 (Deployment.tasks self) s2)) /\
  (forall self,
     result_of (run handle1 (Deployment.sessions self) s1)
     = result_of (run handle2 (Deployment.sessions self) s2)) /\
  (forall self config,
     result_of (run handle1 (DeploymentCollection.create self config) s1)
     = result_of (run handle2 (DeploymentCollection.create self config) s2)) /\
  (forall self deployment_id,
     result_of (run handle1 (DeploymentCollection.get self deployment_id) s1)
     = result_of (run handle2 (DeploymentCollection.get self deployment_id) s2))
  /\
  (forall self,
     result_of (run handle1 (ApiServer.deployments self) s1)
     = result_of (run handle2 (ApiServer.deployments self) s2)).
Proof.
  intros H1 H2 Htext.
  repeat apply conj; intros;
    unfold SessionCollection.delete, SessionCollection.create, Task.results,
      TaskCollection.run, TaskCollection.create, Deployment.tasks,
      Deployment.sessions, DeploymentCollection.create,
      DeploymentCollection.get, ApiServer.deployments;
    same_body handle1 handle2 H1 H2 Htext.
Qed.

Lemma only_status_reads_the_status_code_witness :
  result_of (run (always (Responded {| status_code := 500;
                                       text := jtext "{'detail': 'boom'}" |}))
               (TaskCollection.run (sample_tasks false) (JStr "input")) tt)
  = result_of (run (always (Responded {| status_code := 200;
                                         text := jtext "{'detail': 'boom'}" |}))
                 (TaskCollection.run (sample_tasks false) (JStr "input")) tt).
Proof.
  apply (proj1 (proj2 (proj2 (proj2
           (only_status_reads_the_status_code (E := sample_externals)
              (always (Responded {| status_code := 500;
                                    text := jtext "{'detail': 'boom'}" |}))
              (always (Responded {| status_code := 200;
                                    text := jtext "{'detail': 'boom'}" |}))
              tt tt tt tt _ _
              (fun rq => eq_refl) (fun rq => eq_refl) eq_refl))))
           (sample_tasks false) (JStr "input")).
Defined.

(** ** Creation, case by case *)

(** X10: [TaskCollection.create] builds the task from the [task_id] and
    [session_id] entries of the JSON object in the answer, in the deployment,
    with the client and in the mode of the collection.  It raises
    [KeyError] when one of the two entries is missing, [TypeError] when the
    body is JSON but not an object, and [JSONDecodeError] when it is not
    JSON. *)
Theorem task_create_from_response {E : Externals} {S : Type}
    (handle : S -> Request -> reply * S) (self : TaskCollection.t)
    (task : TaskDefinition) (s s' : S) (r : Response) :
  (forall rq, handle s rq = (Responded r, s')) ->
  (forall fields t sid,
     json_loads (text r) = Some (JObj fields) ->
     dict_get fields "task_id" = Some (JStr t) ->
     dict_get fields "session_id" = Some (JStr sid) ->
     result_of (run handle (TaskCollection.create self task) s)
     = Ok {| Task.client := TaskCollection.client self;
             Task._instance_is_sync := TaskCollection._instance_is_sync self;
             Task.id := t;
             Task.deployment_id := TaskCollection.deployment_id self;
             Task.session_id := sid |}) /\
  (forall fields,
     json_loads (text r) = Some (JObj fields) ->
     dict_get fields "task_id" = None \/ dict_get fields "session_id" = None ->
     result_of (run handle (TaskCollection.create self task) s)
     = Err KeyError) /\
  (forall v,
     json_loads (text r) = Some v ->
     (forall fields, v <> JObj fields) ->
     result_of (run handle (TaskCollection.create self task) s)
     = Err TypeError) /\
  (json_loads (text r) = None ->
   result_of (run handle (TaskCollection.create self task) s)
   = Err JSONDecodeError).
Proof.
  intros H.
  assert (Hrun : result_of (run handle (TaskCollection.create self task) s) =
            match json_loads (text r) with
            | None => Err JSONDecodeError
            | Some response_fields =>
                let? task_id := py_getitem response_fields "task_id" in
                let? session_id := py_getitem response_fields "session_id" in
                Task.instance (TaskCollection._instance_is_sync self)
                  (TaskCollection.client self)
                  (JStr (TaskCollection.deployment_id self))
                  task_id session_id
            end).
  { unfold TaskCollection.create.
    rewrite run_request_then by no_await. rewrite H. cbn [fst snd result_of].
    rewrite run_json_bind. destruct (json_loads (text r)); [|reflexivity].
    rewrite run_lift. reflexivity. }
  rewrite Hrun. repeat apply conj.
  - intros fields t sid -> Ht Hsid. cbn. rewrite Ht. cbn. rewrite Hsid.
    reflexivity.
  - intros fields -> [Hnone|Hnone]; cbn.
    + rewrite Hnone. reflexivity.
    + destruct (dict_get fields "task_id"); [|reflexivity].
      cbn. rewrite Hnone. reflexivity.
  - intros v -> Hv. destruct v; try reflexivity. now destruct (Hv kvs).
  - intros ->. reflexivity.
Qed.

Lemma task_create_from_response_witness :
  result_of (run (serving "{'task_id': 't7', 'session_id': 's3'}")
               (TaskCollection.create (sample_tasks true) (JStr "input")) tt)
  = Ok {| Task.client := local_client;
          Task._instance_is_sync := true;
          Task.id := "t7";
          Task.deployment_id := "d1";
          Task.session_id := "s3" |} /\
  result_of (run (serving "{'task_id': 't7'}")
               (TaskCollection.create (sample_tasks true) (JStr "input")) tt)
  = Err KeyError.
Proof.
  split.
  - apply (proj1 (task_create_from_response (E := sample_externals)
                    (serving "{'task_id': 't7', 'session_id': 's3'}")
                    (sample_tasks true) (JStr "input") tt tt
                    {| status_code := 200;
                       text := jtext "{'task_id': 't7', 'session_id': 's3'}" |}
                    (fun rq => eq_refl))
             [("task_id", JStr "t7"); ("session_id", JStr "s3")] "t7" "s3");
      vm_compute; reflexivity.
  - apply (proj1 (proj2 (task_create_from_response (E := sample_externals)
                    (serving "{'task_id': 't7'}")
                    (sample_tasks true) (JStr "input") tt tt
                    {| status_code := 200;
                       text := jtext "{'task_id': 't7'}" |}
                    (fun rq => eq_refl)))
             [("task_id", JStr "t7")]);
      [vm_compute; reflexivity | right; reflexivity].
Defined.

(** X11: a task returned by [TaskCollection.create] is addressed by what
    the answer said: its [results] call issues one GET request for
    [/deployments/<deployment of the collection>/tasks/<task_id>/results]
    with the [session_id] of the answer as parameter, and its event stream
    connects to the [events] path of the same task with the same
    parameter. *)
Theorem created_task_is_addressed {E : Externals} {S : Type}
    (handle : S -> Request -> reply * S) (self : TaskCollection.t)
    (task : TaskDefinition) (s s' : S) (log : list Request) (x : Task.t)
    (r : Response) (fields : dict json) (t sid : string) :
  run handle (TaskCollection.create self task) s = (Ok x, s', log) ->
  (forall rq, fst (handle s rq) = Responded r) ->
  json_loads (text r) = Some (JObj fields) ->
  dict_get fields "task_id" = Some (JStr t) ->
  dict_get fields "session_id" = Some (JStr sid) ->
  requests_of (run handle (Task.results x) s') =
    [client_request (TaskCollection.client self) GET
       (api_server_url (TaskCollection.client self) ++ "/deployments/"
          ++ TaskCollection.deployment_id self ++ "/tasks/" ++ t ++ "/results")
       (Some [("session_id", sid)]) None None] /\
  Task.events_request x =
    {| req_method := GET;
       req_url :=
         api_server_url (TaskCollection.client self) ++ "/deployments/"
           ++ TaskCollection.deployment_id self ++ "/tasks/" ++ t ++ "/events";
       req_params := Some [("session_id", sid)];
       req_json := None;
       req_files := None;
       req_verify := Some (negb (disable_ssl (TaskCollection.client self)));
       req_timeout := None |}.
Proof.
  intros Hrun H Hbody Ht Hsid.
  assert (Hx : x = {| Task.client := TaskCollection.client self;
                      Task._instance_is_sync :=
                        TaskCollection._instance_is_sync self;
                      Task.id := t;
                      Task.deployment_id := TaskCollection.deployment_id self;
                      Task.session_id := sid |}).
  { unfold TaskCollection.create in Hrun.
    rewrite run_request_then in Hrun by no_await. rewrite H in Hrun.
    rewrite run_json_bind, Hbody, run_lift in Hrun.
    cbn in Hrun. rewrite Ht in Hrun. cbn in Hrun. rewrite Hsid in Hrun.
    cbn in Hrun. now inversion Hrun. }
  subst x. split; [|reflexivity].
  unfold Task.results. rewrite run_request_then by no_await. reflexivity.
Qed.

Lemma created_task_is_addressed_witness :
  exists x,
    result_of (run (serving "{'task_id': 't7', 'session_id': 's3'}")
                 (TaskCollection.create (sample_tasks false) (JStr "input")) tt)
    = Ok x /\
    requests_of (run (serving "{'task_id': 't7', 'session_id': 's3'}")
                   (Task.results x) tt) =
    [client_request local_client GET
       "http://localhost:4501/deployments/d1/tasks/t7/results"
       (Some [("session_id", "s3")]) None None].
Proof.
  eexists. split; [vm_compute; reflexivity|].
  apply (proj1 (created_task_is_addressed (E := sample_externals)
                  (serving "{'task_id': 't7', 'session_id': 's3'}")
                  (sample_tasks false) (JStr "input") tt tt _ _
                  {| status_code := 200;
                     text := jtext "{'task_id': 't7', 'session_id': 's3'}" |}
                  [("task_id", JStr "t7"); ("session_id", JStr "s3")]
                  "t7" "s3"
                  eq_refl (fun rq => eq_refl) eq_refl eq_refl eq_refl)).
Defined.

(** X12: [DeploymentCollection.create] names the new deployment after the
    [name] entry of the JSON object in the answer and raises
    [AttributeError] when the body is JSON but not an object;
    [SessionCollection.create] builds a [SessionDefinition] from the entries
    of the object and names the new session after its [session_id]; it
    raises [ValidationError] when the definition is refused and [TypeError]
    when the body is JSON but not an object.  Both give the new object the
    client and the mode of the collection. *)
Theorem create_from_response {E : Externals} {S : Type}
    (handle : S -> Request -> reply * S) (s s' : S) (r : Response) (v : json) :
  (forall rq, handle s rq = (Responded r, s')) ->
  json_loads (text r) = Some v ->
  (forall self config fields name,
     v = JObj fields ->
     dict_get fields "name" = Some (JStr name) ->
     result_of (run handle (DeploymentCollection.create self config) s)
     = Ok {| Model.client := DeploymentCollection.client self;
             Model._instance_is_sync :=
               DeploymentCollection._instance_is_sync self;
             Model.id := name |}) /\
  (forall self config,
     (forall fields, v <> JObj fields) ->
     result_of (run handle (DeploymentCollection.create self config) s)
     = Err AttributeError) /\
  (forall self fields,
     v = JObj fields ->
     result_of (run handle (SessionCollection.create self) s)
     = match SessionDefinition_init fields with
       | Some session_def =>
           Ok {| Model.client := SessionCollection.client self;
                 Model._instance_is_sync :=
                   SessionCollection._instance_is_sync self;
                 Model.id := SessionDefinition_session_id session_def |}
       | None => Err ValidationError
       end) /\
  (forall self,
     (forall fields, v <> JObj fields) ->
     result_of (run handle (SessionCollection.create self) s) = Err TypeError).
Proof.
  intros H Hbody. repeat apply conj.
  - intros self config fields name -> Hname.
    unfold DeploymentCollection.create.
    rewrite run_request_then by no_await. rewrite H. cbn [fst snd result_of].
    rewrite run_json_bind, Hbody, run_lift. cbn. rewrite Hname. reflexivity.
  - intros self config Hv. unfold DeploymentCollection.create.
    rewrite run_request_then by no_await. rewrite H. cbn [fst snd result_of].
    rewrite run_json_bind, Hbody, run_lift.
    destruct v; try reflexivity. now destruct (Hv kvs).
  - intros self fields ->. unfold SessionCollection.create.
    rewrite run_request_then by no_await. rewrite H. cbn [fst snd result_of].
    rewrite run_json_bind, Hbody.
    destruct (SessionDefinition_init fields); reflexivity.
  - intros self Hv. unfold SessionCollection.create.
    rewrite run_request_then by no_await. rewrite H. cbn [fst snd result_of].
    rewrite run_json_bind, Hbody.
    destruct v; try reflexivity. now destruct (Hv kvs).
Qed.

Lemma create_from_response_witness :
  result_of (run (serving "{'name': 'quickstart'}")
               (DeploymentCollection.create (sample_deployments true)
                  "name: quickstart") tt)
  = Ok {| Model.client := local_client;
          Model._instance_is_sync := true;
          Model.id := "quickstart" |} /\
  result_of (run (serving "['quickstart']")
               (SessionCollection.create (sample_sessions true)) tt)
  = Err TypeError.
Proof.
  split.
  - apply (proj1 (create_from_response (E := sample_externals)
                    (serving "{'name': 'quickstart'}") tt tt
                    {| status_code := 200;
                       text := jtext "{'name': 'quickstart'}" |}
                    (JObj [("name", JStr "quickstart")])
                    (fun rq => eq_refl) eq_refl)
             (sample_deployments true) "name: quickstart"
             [("name", JStr "quickstart")] "quickstart" eq_refl eq_refl).
  - apply (proj2 (proj2 (proj2 (create_from_response (E := sample_externals)
                    (serving "['quickstart']") tt tt
                    {| status_code := 200; text := jtext "['quickstart']" |}
                    (JArr [JStr "quickstart"])
                    (fun rq => eq_refl) eq_refl)))
             (sample_sessions true)).
    discriminate.
Defined.

(** ** The client of created objects *)

Lemma created_objects_keep_client {E : Externals} :
  (forall self,
     returns_only
       (fun x => Model.client x = SessionCollection.client self)
       (SessionCollection.create self)) /\
  (forall self task,
     returns_only
       (fun x => Task.client x = TaskCollection.client self /\
                 Task.deployment_id x = TaskCollection.deployment_id self)
       (TaskCollection.create self task)) /\
  (forall self config,
     returns_only
       (fun x => Model.client x = DeploymentCollection.client self)
       (DeploymentCollection.create self config)) /\
  (forall self deployment_id,
     returns_only
       (fun x => Model.client x = DeploymentCollection.client self)
       (DeploymentCollection.get self deployment_id)) /\
  (forall self,
     returns_only
       (fun x => TaskCollection.client x = Model.client self /\
                 TaskCollection.deployment_id x = Model.id self)
       (Deployment.tasks self)) /\
  (forall self,
     returns_only
       (fun x => SessionCollection.client x = Model.client self /\
                 SessionCollection.deployment_id x = Model.id self)
       (Deployment.sessions self)) /\
  (forall self,
     returns_only
       (fun x => DeploymentCollection.client x = Model.client self /\
                 Forall (fun kv => Model.client (snd kv) = Model.client self)
                   (DeploymentCollection.items x))
       (ApiServer.deployments self)).
Proof.
  repeat apply conj; intros.
  - unfold SessionCollection.create.
    do 3 (apply returns_only_bind; intros).
    apply returns_only_lift. intros x. cbn. intros Hx. now inversion Hx.
  - unfold TaskCollection.create.
    do 2 (apply returns_only_bind; intros).
    apply returns_only_lift. intros x.
    destruct (py_getitem a0 "task_id") as [t|]; [|discriminate].
    destruct (py_getitem a0 "session_id") as [sid|]; [|discriminate].
    cbn. unfold Task.instance. cbn.
    destruct (validate_str t), (validate_str sid); intros Hx;
      inversion Hx; now split.
  - unfold DeploymentCollection.create.
    do 2 (apply returns_only_bind; intros).
    apply returns_only_lift. intros x.
    destruct (py_get a0 "name") as [n|]; [|discriminate].
    cbn. unfold Deployment.instance, Model.instance.
    destruct (validate_str n); intros Hx; inversion Hx. reflexivity.
  - unfold DeploymentCollection.get.
    apply returns_only_bind; intros.
    apply returns_only_lift. intros x Hx. now inversion Hx.
  - unfold Deployment.tasks.
    do 2 (apply returns_only_bind; intros).
    destruct (dict_comprehension _ _ _) as [items|e]; [|constructor].
    cbn. constructor. now split.
  - unfold Deployment.sessions.
    do 2 (apply returns_only_bind; intros).
    destruct (dict_comprehension _ _ _) as [items|e]; [|constructor].
    cbn. constructor. now split.
  - unfold ApiServer.deployments.
    do 2 (apply returns_only_bind; intros).
    destruct (dict_comprehension _ _ _) as [items|e] eqn:Hitems;
      [|constructor].
    cbn. constructor. cbn. split; [reflexivity|].
    eapply (dict_comprehension_values
              (fun v => Model.client v = Model.client self));
      [|exact Hitems].
    intros y v. unfold Deployment.instance, Model.instance.
    destruct (validate_str y); intros Hx; inversion Hx. reflexivity.
Qed.

(** X13: every object a method returns shares the client of the object the
    method was called on, also each item of a listing of deployments; a
    created task and a listing of tasks or sessions belong to the deployment
    of the object they come from. *)
Theorem created_objects_share_client {E : Externals} {S : Type}
    (handle : S -> Request -> reply * S) (s s' : S) (log : list Request) :
  (forall self x,
     run handle (SessionCollection.create self) s = (Ok x, s', log) ->
     Model.client x = SessionCollection.client self) /\
  (forall self task x,
     run handle (TaskCollection.create self task) s = (Ok x, s', log) ->
     Task.client x = TaskCollection.client self /\
     Task.deployment_id x = TaskCollection.deployment_id self) /\
  (forall self config x,
     run handle (DeploymentCollection.create self config) s = (Ok x, s', log) ->
     Model.client x = DeploymentCollection.client self) /\
  (forall self deployment_id x,
     run handle (DeploymentCollection.get self deployment_id) s
       = (Ok x, s', log) ->
     Model.client x = DeploymentCollection.client self) /\
  (forall self x,
     run handle (Deployment.tasks self) s = (Ok x, s', log) ->
     TaskCollection.client x = Model.client self /\
     TaskCollection.deployment_id x = Model.id self) /\
  (forall self x,
     run handle (Deployment.sessions self) s = (Ok x, s', log) ->
     SessionCollection.client x = Model.client self /\
     SessionCollection.deployment_id x = Model.id self) /\
  (forall self x,
     run handle (ApiServer.deployments self) s = (Ok x, s', log) ->
     DeploymentCollection.client x = Model.client self /\
     forall k item, In (k, item) (DeploymentCollection.items x) ->
       Model.client item = Model.client self).
Proof.
  destruct created_objects_keep_client as (H1 & H2 & H3 & H4 & H5 & H6 & H7).
  repeat apply conj.
  - intros self x Hrun.
    exact (returns_only_run handle _ _ (H1 self) _ _ _ _ Hrun).
  - intros self task x Hrun.
    exact (returns_only_run handle _ _ (H2 self task) _ _ _ _ Hrun).
  - intros self config x Hrun.
    exact (returns_only_run handle _ _ (H3 self config) _ _ _ _ Hrun).
  - intros self deployment_id x Hrun.
    exact (returns_only_run handle _ _ (H4 self deployment_id) _ _ _ _ Hrun).
  - intros self x Hrun.
    exact (returns_only_run handle _ _ (H5 self) _ _ _ _ Hrun).
  - intros self x Hrun.
    exact (returns_only_run handle _ _ (H6 self) _ _ _ _ Hrun).
  - intros self x Hrun.
    destruct (returns_only_run handle _ _ (H7 self) _ _ _ _ Hrun) as [Hm Hi].
    split; [exact Hm|]. intros k item Hin.
    rewrite Forall_forall in Hi. exact (Hi _ Hin).
Qed.

Lemma created_objects_share_client_witness :
  (exists x log,
     run (serving "{'session_id': 's1'}")
       (SessionCollection.create (sample_sessions true)) tt = (Ok x, tt, log) /\
     Model.client x = local_client) /\
  (exists x log,
     run (serving "['a', 'b']") (ApiServer.deployments (sample_apiserver true)) tt
       = (Ok x, tt, log) /\
     DeploymentCollection.client x = local_client /\
     exists item, In ("id", item) (DeploymentCollection.items x) /\
                  Model.client item = local_client).
Proof.
  split.
  - eexists; eexists; split; [vm_compute; reflexivity|].
    exact (proj1 (created_objects_share_client
                    (serving "{'session_id': 's1'}") tt tt _)
             (sample_sessions true) _ eq_refl).
  - eexists; eexists; split; [vm_compute; reflexivity|].
    pose proof (proj2 (proj2 (proj2 (proj2 (proj2 (proj2
              (created_objects_share_client (serving "['a', 'b']") tt tt _))))))
              (sample_apiserver true) _ eq_refl) as [Hm Hi].
    split; [exact Hm|].
    eexists; split; [left; reflexivity|].
    apply (Hi "id"). left; reflexivity.
Defined.

(** ** The event stream, in general *)

Lemma stream_lines_malformed {E : Externals} (good : list string)
    (events : list json) (bad : string) (more : list string) :
  Forall2 (fun line event => json_loads line = Some event) good events ->
  json_loads bad = None ->
  Task.stream_lines (good ++ bad :: more)
  = (map Yield events, Err JSONDecodeError).
Proof.
  intros Hgood Hbad.
  induction Hgood as [|line event good events Hd _ IH]; cbn.
  - now rewrite Hbad.
  - rewrite Hd, IH. reflexivity.
Qed.

Lemma is_success_range (code : Z) :
  200 <= code <= 299 -> is_success code = true.
Proof.
  intros [H1 H2]. unfold is_success.
  apply andb_true_iff. split; now apply Z.leb_le.
Qed.

(** X14: after any number of 404 answers, a 2xx answer whose lines all
    decode makes the generator yield the decoded line of every line, in
    order, and end normally; it has slept once for each 404 answer, and it
    does not look at what the server would answer next. *)
Theorem events_stream_delivers {E : Externals} (self : Task.t)
    (pre rest : list attempt) (code : Z) (lines : list string)
    (events : list json) :
  Forall is_404 pre ->
  200 <= code <= 299 ->
  Forall2 (fun line event => json_loads line = Some event) lines events ->
  Task.events self (pre ++ Responds code lines :: rest) =
    ((polling (Task.events_request self) (length pre)
        ++ Connect (Task.events_request self) :: map Yield events)%list,
     Done).
Proof.
  intros Hpre Hcode Hlines.
  rewrite (events_polling self pre _ Hpre).
  rewrite (events_success self code lines rest (is_success_range code Hcode)).
  rewrite (stream_lines_decoded lines events Hlines). reflexivity.
Qed.

Lemma events_stream_delivers_witness :
  Task.events (E := sample_externals) sample_task
    [Responds 404 []; Responds 201 [jtext "{'n': 1}"; jtext "'done'"];
     Responds 500 []]
  = ([Connect (Task.events_request sample_task); Sleep 0.5%float;
      Connect (Task.events_request sample_task);
      Yield (JObj [("n", JInt 1)]); Yield (JStr "done")],
     Done).
Proof.
  apply (events_stream_delivers (E := sample_externals) sample_task
           [Responds 404 []] [Responds 500 []] 201
           [jtext "{'n': 1}"; jtext "'done'"]
           [JObj [("n", JInt 1)]; JStr "done"]).
  - repeat constructor.
  - lia.
  - repeat constructor.
Defined.

(** X15: a line of the stream that is not JSON ends the generator with
    [JSONDecodeError]: the events of the lines before it have been yielded,
    the lines after it are never read, and the connection is not tried
    again. *)
Theorem events_malformed_line {E : Externals} (self : Task.t)
    (pre rest : list attempt) (code : Z) (good more : list string)
    (bad : string) (events : list json) :
  Forall is_404 pre ->
  200 <= code <= 299 ->
  Forall2 (fun line event => json_loads line = Some event) good events ->
  json_loads bad = None ->
  Task.events self (pre ++ Responds code (good ++ bad :: more) :: rest) =
    ((polling (Task.events_request self) (length pre)
        ++ Connect (Task.events_request self) :: map Yield events)%list,
     Raised JSONDecodeError).
Proof.
  intros Hpre Hcode Hgood Hbad.
  rewrite (events_polling self pre _ Hpre).
  rewrite (events_success self code _ rest (is_success_range code Hcode)).
  rewrite (stream_lines_malformed good events bad more Hgood Hbad).
  reflexivity.
Qed.

Lemma events_malformed_line_witness :
  Task.events (E := sample_externals) sample_task
    [Responds 200 [jtext "{'n': 1}"; EmptyString; jtext "{'n': 2}"];
     Responds 200 [jtext "{'n': 3}"]]
  = ([Connect (Task.events_request sample_task);
      Yield (JObj [("n", JInt 1)])],
     Raised JSONDecodeError).
Proof.
  apply (events_malformed_line (E := sample_externals) sample_task
           [] [Responds 200 [jtext "{'n': 3}"]] 200
           [jtext "{'n': 1}"] [jtext "{'n': 2}"] EmptyString
           [JObj [("n", JInt 1)]]).
  - constructor.
  - lia.
  - repeat constructor.
  - reflexivity.
Defined.

(** X16: the polling of [Task.events] has no limit: as long as every answer
    is a 404 the generator connects and sleeps once for each answer, yields
    nothing, and neither ends nor raises. *)
Theorem events_polls_without_limit {E : Externals} (self : Task.t)
    (server : list attempt) :
  Forall is_404 server ->
  Task.events self server =
    (polling (Task.events_request self) (length server), Blocked).
Proof.
  intros H. rewrite <- (app_nil_r server) at 1.
  rewrite (events_polling self server [] H). cbn. now rewrite app_nil_r.
Qed.

Lemma events_polls_without_limit_witness :
  Task.events (E := sample_externals) sample_task
    [Responds 404 []; Responds 404 []; Responds 404 []]
  = ([Connect (Task.events_request sample_task); Sleep 0.5%float;
      Connect (Task.events_request sample_task); Sleep 0.5%float;
      Connect (Task.events_request sample_task); Sleep 0.5%float],
     Blocked).
Proof.
  apply (events_polls_without_limit (E := sample_externals) sample_task
           [Responds 404 []; Responds 404 []; Responds 404 []]).
  repeat constructor.
Defined.

(** X17: a failure of the connection itself (any exception other than an
    HTTP status error) is not retried by [Task.events]: it is raised at
    once, without a sleep after it. *)
Theorem events_transport_failure {E : Externals} (self : Task.t)
    (pre rest : list attempt) (e : exn) :
  Forall is_404 pre ->
  is_HTTPStatusError e = false ->
  Task.events self (pre ++ ConnectFails e :: rest) =
    ((polling (Task.events_request self) (length pre)
        ++ [Connect (Task.events_request self)])%list,
     Raised e).
Proof.
  intros Hpre He. rewrite (events_polling self pre _ Hpre).
  cbn [Task.events Task.try_body].
  destruct e; try discriminate He; reflexivity.
Qed.

Lemma events_transport_failure_witness :
  Task.events (E := sample_externals) sample_task
    [Responds 404 []; ConnectFails ConnectError; Responds 200 []]
  = ([Connect (Task.events_request sample_task); Sleep 0.5%float;
      Connect (Task.events_request sample_task)],
     Raised ConnectError).
Proof.
  apply (events_transport_failure (E := sample_externals) sample_task
           [Responds 404 []] [Responds 200 []] ConnectError).
  - repeat constructor.
  - reflexivity.
Defined.

Lemma stream_lines_only_yields {E : Externals} (lines : list string) :
  Forall (fun a => exists event, a = Yield event)
    (fst (Task.stream_lines lines)).
Proof.
  induction lines as [|line lines IH]; cbn.
  - constructor.
  - destruct (json_loads line) as [event|]; [|constructor].
    destruct (Task.stream_lines lines) as [acts r]. cbn in *.
    constructor; [now exists event|exact IH].
Qed.

Lemma try_body_only_yields {E : Externals} (a : attempt) :
  Forall (fun a => exists event, a = Yield event) (fst (Task.try_body a)).
Proof.
  destruct a as [e|code lines]; cbn.
  - constructor.
  - destruct (raise_for_status code); [|constructor].
    apply stream_lines_only_yields.
Qed.

Lemma filter_only_yields (f : action -> bool) (acts : list action) :
  (forall event, f (Yield event) = false) ->
  Forall (fun a => exists event, a = Yield event) acts ->
  filter f acts = [].
Proof.
  intros Hf. induction 1 as [|a acts [event ->] _ IH]; cbn.
  - reflexivity.
  - now rewrite Hf.
Qed.

(** X18: in every run of [Task.events], every connection attempt issues the
    same request, every sleep lasts the poll interval, and there is exactly
    one sleep between two connection attempts: the generator has slept once
    for each attempt but the last, and once for each attempt while it is
    still polling. *)
Theorem events_sleeps_between_connects {E : Externals} (self : Task.t)
    (server : list attempt) :
  Forall (fun a => match a with
                   | Connect rq => rq = Task.events_request self
                   | Sleep seconds => seconds = DEFAULT_POLL_INTERVAL
                   | Yield _ => True
                   end)
    (fst (Task.events self server)) /\
  length (filter is_Connect (fst (Task.events self server))) =
    (length (filter is_Sleep (fst (Task.events self server)))
     + match snd (Task.events self server) with
       | Blocked => 0
       | _ => 1
       end)%nat.
Proof.
  induction server as [|a server [IH1 IH2]]; cbn [Task.events].
  - split; [constructor|reflexivity].
  - pose proof (try_body_only_yields a) as Hy.
    destruct (Task.try_body a) as [acts r]. cbn [fst] in Hy.
    assert (Hall : Forall (fun a => match a with
                     | Connect rq => rq = Task.events_request self
                     | Sleep seconds => seconds = DEFAULT_POLL_INTERVAL
                     | Yield _ => True
                     end) (Connect (Task.events_request self) :: acts)).
    { constructor; [reflexivity|].
      eapply Forall_impl; [|exact Hy]. now intros x [event ->]. }
    assert (Hc : filter is_Connect acts = [])
      by (apply filter_only_yields; [reflexivity|exact Hy]).
    assert (Hs : filter is_Sleep acts = [])
      by (apply filter_only_yields; [reflexivity|exact Hy]).
    assert (Hend : forall fin, fin <> Blocked ->
              length (filter is_Connect
                        (Connect (Task.events_request self) :: acts)) =
              (length (filter is_Sleep
                         (Connect (Task.events_request self) :: acts))
               + match fin with Blocked => 0 | _ => 1 end)%nat).
    { intros fin Hfin. cbn. rewrite Hc, Hs. now destruct fin. }
    destruct r as [[]|e].
    + split; [exact Hall|]. now apply Hend.
    + destruct e as [| |code| | | | |];
        try (split; [exact Hall|]; now apply Hend).
      destruct (negb (code =? 404)).
      * split; [exact Hall|]. now apply Hend.
      * destruct (Task.events self server) as [more fin]. cbn [fst snd] in *.
        split.
        -- change (Connect (Task.events_request self)
                     :: (acts ++ Sleep DEFAULT_POLL_INTERVAL :: more)%list)
             with ((Connect (Task.events_request self) :: acts)
                     ++ Sleep DEFAULT_POLL_INTERVAL :: more)%list.
           apply Forall_app. split; [exact Hall|].
           constructor; [reflexivity|exact IH1].
        -- cbn. rewrite !filter_app. cbn. rewrite Hc, Hs. cbn.
           rewrite IH2. lia.
Qed.
